(** * dox-cli PDF extraction scripts: layout reconstruction and quality scoring

    A shallow embedding of [scripts/pdf_extract_coords.py]
    (class [CoordinateBasedExtractor] and [main]) and of
    [scripts/pdf_extract.py] (class [PDFExtractor]), followed by the
    properties of the specification that concern them.

    Modelling conventions.
    - Python [float] and [int] coordinates and scores are exact rationals
      ([Q]); equality of scores is [Qeq].  Rounding error of binary
      floating point is not modelled there.  The scores of best-of mode,
      which are compared with each other and where a tie decides which
      tables are returned, are IEEE 754 doubles (primitive floats) with the
      operations of the code.
    - A Python [str] is a list of Unicode code points ([list N]), so that
      [len], [startswith] and the marker glyphs are what Python sees.
    - A Python [dict] with a fixed set of keys is a record; a key that the
      code may leave out ([level], [marker]) is an [option] field.
    - pdfplumber is an external collaborator: a page is a record of what its
      attributes and methods return, a raised exception is [None] (or a
      message where the code reads it).
    - A [for] loop that appends to a list is a [fold_left] over the
      iterated sequence, with the loop's local variables as the state. *)

From Stdlib Require Import String Ascii DecimalString.
From Stdlib Require Import List Bool Arith ZArith QArith Qround Qabs Lqa Lia.
From Stdlib Require Import Permutation Sorted.
From Stdlib Require Import PrimFloat.
Import ListNotations.
Open Scope Q_scope.

(** ** Rational arithmetic as the code uses it *)

Definition Qlt_bool (a b : Q) : bool := negb (Qle_bool b a).

(** [min(a, b)] of Python: [b] when [b < a], else [a]. *)
Definition py_min (a b : Q) : Q := if Qlt_bool b a then b else a.

(** [max(a, b)] of Python: [b] when [b > a], else [a]. *)
Definition py_max (a b : Q) : Q := if Qlt_bool a b then b else a.

(** [len(...)] and counters, used in a true division. *)
Definition Qnat (n : nat) : Q := inject_Z (Z.of_nat n).

(** A positive integer as a double, from its binary digits; exact below
    2^53, which covers every count of cells. *)
Fixpoint float_of_pos (p : positive) : float :=
  match p with
  | xH => 1%float
  | xO p' => (2 * float_of_pos p')%float
  | xI p' => (2 * float_of_pos p' + 1)%float
  end.

(** [float(n)] for a counter [n], as the arithmetic of a [float] with an
    [int] converts it. *)
Definition py_float (n : nat) : float :=
  match n with
  | O => 0%float
  | S _ => float_of_pos (Pos.of_nat n)
  end.

(** [round(x)] of Python 3 with one argument: nearest integer, a tie goes to
    the even neighbour. *)
Definition py_round (q : Q) : Z :=
  let f := Qfloor q in
  let d := q - inject_Z f in
  if Qlt_bool d (1#2) then f
  else if Qlt_bool (1#2) d then (f + 1)%Z
  else if Z.even f then f else (f + 1)%Z.

(** ** Python strings *)

Definition char := N.
Definition pystr := list char.

(** An ASCII literal as a Python string. *)
Definition py (s : string) : pystr := map N_of_ascii (list_ascii_of_string s).

(** Truth value of a string or list: non-empty. *)
Definition truthy {A : Type} (l : list A) : bool :=
  match l with [] => false | _ :: _ => true end.

(** [str.isspace] on one code point: the Unicode white space characters. *)
Definition isspace (c : char) : bool :=
  ((9 <=? c) && (c <=? 13) || (28 <=? c) && (c <=? 32) || (c =? 133)
   || (c =? 160) || (c =? 5760) || (8192 <=? c) && (c <=? 8202)
   || (c =? 8232) || (c =? 8233) || (c =? 8239) || (c =? 8287)
   || (c =? 12288))%N.

Fixpoint lstrip (s : pystr) : pystr :=
  match s with
  | c :: s' => if isspace c then lstrip s' else s
  | [] => []
  end.

Definition rstrip (s : pystr) : pystr := rev (lstrip (rev s)).

(** [s.strip()] *)
Definition strip (s : pystr) : pystr := rstrip (lstrip s).

(** [s.startswith(p)] *)
Fixpoint startswith (s p : pystr) : bool :=
  match p, s with
  | [], _ => true
  | _ :: _, [] => false
  | a :: p', b :: s' => (a =? b)%N && startswith s' p'
  end.

(** [s.endswith(p)] *)
Definition endswith (s p : pystr) : bool := startswith (rev s) (rev p).

Definition pystr_eqb (a b : pystr) : bool :=
  (length a =? length b)%nat && startswith a b.

(** [p in s] for strings: [p] occurs as a substring of [s]. *)
Fixpoint contains (s p : pystr) : bool :=
  startswith s p || match s with [] => false | _ :: s' => contains s' p end.

(** [s.lower()], on the ASCII letters; other code points are left as they
    are (the messages the code inspects are ASCII). *)
Definition lower_char (c : char) : char :=
  if ((65 <=? c) && (c <=? 90))%N then (c + 32)%N else c.

Definition lower (s : pystr) : pystr := map lower_char s.

(** [str(n)] for a non-negative integer. *)
Definition str_nat (n : nat) : pystr := py (NilZero.string_of_uint (Nat.to_uint n)).

Definition two_digits (n : nat) : pystr :=
  str_nat (n / 10) ++ str_nat (n mod 10).

(** [f"{q:.2f}"]: the value rounded to two decimals. *)
Definition fmt_2f (q : Q) : pystr :=
  let a := Z.to_nat (Z.abs (py_round (q * 100))) in
  (if Qlt_bool q 0 then py "-" else []) ++
  str_nat (a / 100) ++ py "." ++ two_digits (a mod 100).

(** ** Output data of the coordinate-preserving flow *)

Record BBox := mkBBox { b_x : Q; b_y : Q; b_width : Q; b_height : Q }.

Inductive ElementType := text_elem | heading | list_item | table_row.

(** An entry of [page_data["elements"]]. *)
Record Element := mkElement {
  e_type : ElementType;
  e_content : pystr;
  e_bbox : BBox;
  e_level : option Z;
  e_marker : option pystr
}.

(** A cell of an extracted grid: [None] or a string. *)
Definition Cell := option pystr.
Definition Grid := list (list Cell).

(** An entry of [page_data["tables"]] ([table_data]). *)
Record TableData := mkTableData {
  t_data : Grid;
  t_rows : nat;
  t_cols : nat;
  t_bbox : BBox
}.

(** [page_data]; an absent ["tables"] key is the empty list, as
    [page.get("tables", [])] reads it. *)
Record PageData := mkPageData {
  p_number : nat;
  p_width : Q;
  p_height : Q;
  p_elements : list Element;
  p_tables : list TableData
}.

Record TableScore := mkTableScore {
  ts_page : nat; ts_rows : nat; ts_cols : nat; ts_quality : Q
}.

(** [self.quality_report] *)
Record QualityReport := mkReport {
  overall_score : Q;
  table_scores : list TableScore;
  warnings : list pystr;
  errors : list pystr
}.

Definition initial_report : QualityReport := mkReport 0 [] [] [].

(** ** Quality assessors *)

(** [cell and str(cell).strip()] *)
Definition cell_filled (c : Cell) : bool :=
  match c with
  | None => false
  | Some s => truthy s && truthy (strip s)
  end.

(** The two counters of the nested loop of [assess_table_quality]. *)
Definition count_total (d : Grid) : nat :=
  fold_left (fun n row => fold_left (fun n _ => S n) row n) d 0%nat.

Definition count_non_empty (d : Grid) : nat :=
  fold_left (fun n row =>
    fold_left (fun n c => if cell_filled c then S n else n) row n) d 0%nat.

Definition fill_ratio (d : Grid) : Q := Qnat (count_non_empty d) / Qnat (count_total d).

Definition size_factor (t : TableData) : Q :=
  py_min 1 (Qnat (t_rows t * t_cols t) / 10).

Definition assess_table_quality (t : TableData) : Q :=
  if negb (truthy (t_data t)) then 0
  else if (count_total (t_data t) =? 0)%nat then 0
  else fill_ratio (t_data t) * (0.7 + 0.3 * size_factor t).

(** The two counters of the nested loop of [assess_text_quality], over the
    elements of all pages in order. *)
Definition text_step (st : nat * nat) (e : Element) : nat * nat :=
  let '(total_chars, meaningful_elements) := st in
  let content := strip (e_content e) in
  if truthy content then
    (total_chars + length content,
     if (2 <? length content)%nat then S meaningful_elements
     else meaningful_elements)%nat
  else st.

Definition text_counters (pages : list PageData) : nat * nat :=
  fold_left (fun st p => fold_left text_step (p_elements p) st) pages (0, 0)%nat.

Definition assess_text_quality (pages : list PageData) : Q :=
  let '(total_chars, meaningful_elements) := text_counters pages in
  if (total_chars =? 0)%nat then 0
  else
    let pages_count := length pages in
    if (pages_count =? 0)%nat then 0
    else
      let avg_chars_per_page := Qnat total_chars / Qnat pages_count in
      let char_score := py_min 1 (avg_chars_per_page / 100) in
      let element_score :=
        py_min 1 (Qnat meaningful_elements / Qnat (pages_count * 5)) in
      char_score * 0.6 + element_score * 0.4.

(** The three counters of [assess_structure_quality]. *)
Definition structure_step (st : nat * nat * nat) (p : PageData) : nat * nat * nat :=
  let '(h, l, t) :=
    fold_left (fun (st : nat * nat * nat) e =>
      let '(h, l, t) := st in
      match e_type e with
      | heading => (S h, l, t)
      | list_item => (h, S l, t)
      | _ => (h, l, t)
      end) (p_elements p) st in
  (h, l, (t + length (p_tables p))%nat).

Definition assess_structure_quality (pages : list PageData) : Q :=
  let '(heading_count, list_count, table_count) :=
    fold_left structure_step pages (0, 0, 0)%nat in
  let s := 0 in
  let s := if (0 <? heading_count)%nat then s + 0.4 else s in
  let s := if (0 <? list_count)%nat then s + 0.3 else s in
  let s := if (0 <? table_count)%nat then s + 0.3 else s in
  s.

(** [sum(score_weights)] *)
Definition py_sum (l : list Q) : Q := fold_left Qplus l 0.

Definition add_warning (r : QualityReport) (m : pystr) : QualityReport :=
  mkReport (overall_score r) (table_scores r) (warnings r ++ [m]) (errors r).

Definition add_error (r : QualityReport) (m : pystr) : QualityReport :=
  mkReport (overall_score r) (table_scores r) (warnings r) (errors r ++ [m]).

Definition add_table_score (r : QualityReport) (s : TableScore) : QualityReport :=
  mkReport (overall_score r) (table_scores r ++ [s]) (warnings r) (errors r).

Definition set_overall_score (r : QualityReport) (q : Q) : QualityReport :=
  mkReport q (table_scores r) (warnings r) (errors r).

Definition mostly_empty_msg (page rows cols : nat) (quality : Q) : pystr :=
  py "Page " ++ str_nat page ++ py ": Table with " ++ str_nat rows ++ py "x"
  ++ str_nat cols ++ py " is mostly empty (quality: " ++ fmt_2f quality ++ py ")".

Definition table_quality_msg (avg : Q) : pystr :=
  py "Table quality too low: " ++ fmt_2f avg ++ py " average".

(** The tables of all pages in the order of the nested loop of
    [assess_quality], each with the number of its page. *)
Definition tables_in_order (pages : list PageData) : list (nat * TableData) :=
  flat_map (fun p => map (pair (p_number p)) (p_tables p)) pages.

(** Body of the inner loop of [assess_quality]; the state is
    [(table_count, table_quality_sum, self.quality_report)]. *)
Definition table_step (st : nat * Q * QualityReport) (pt : nat * TableData)
  : nat * Q * QualityReport :=
  let '(table_count, table_quality_sum, rep) := st in
  let '(page_number, table) := pt in
  let quality := assess_table_quality table in
  let rep := add_table_score rep
    (mkTableScore page_number (t_rows table) (t_cols table) quality) in
  let rep :=
    if Qlt_bool quality 0.1
    then add_warning rep
           (mostly_empty_msg page_number (t_rows table) (t_cols table) quality)
    else rep in
  (S table_count, table_quality_sum + quality, rep).

Definition assess_quality (pages : list PageData) (rep : QualityReport)
  : Q * QualityReport :=
  let total_score := 0 in
  let score_weights : list Q := [] in
  let '(table_count, table_quality_sum, rep) :=
    fold_left table_step (tables_in_order pages) (0%nat, 0, rep) in
  let '(total_score, score_weights, rep) :=
    if (0 <? table_count)%nat then
      let avg_table_quality := table_quality_sum / Qnat table_count in
      (total_score + avg_table_quality * 0.5, score_weights ++ [0.5],
       if Qlt_bool avg_table_quality 0.2
       then add_error rep (table_quality_msg avg_table_quality) else rep)
    else (total_score, score_weights, rep) in
  let text_quality := assess_text_quality pages in
  let total_score := total_score + text_quality * 0.3 in
  let score_weights := score_weights ++ [0.3] in
  let structure_quality := assess_structure_quality pages in
  let total_score := total_score + structure_quality * 0.2 in
  let score_weights := score_weights ++ [0.2] in
  let overall_score :=
    if Qlt_bool 0 (py_sum score_weights)
    then total_score / py_sum score_weights else 0 in
  (overall_score, set_overall_score rep overall_score).

(** ** Quantities in which the specification states the scores *)

Definition all_tables (pages : list PageData) : list TableData :=
  flat_map p_tables pages.

Definition all_elements (pages : list PageData) : list Element :=
  flat_map p_elements pages.

(** Average of the per-table qualities of a document. *)
Definition avg_table_quality (pages : list PageData) : Q :=
  py_sum (map assess_table_quality (all_tables pages))
  / Qnat (length (all_tables pages)).

(** A meaningful element: trimmed content longer than 2 characters. *)
Definition meaningful (e : Element) : bool :=
  (2 <? length (strip (e_content e)))%nat.

(** Characters of the non-empty elements of a document, after trimming. *)
Definition doc_chars (pages : list PageData) : nat :=
  list_sum (map (fun e => length (strip (e_content e))) (all_elements pages)).

Definition avg_chars_per_page (pages : list PageData) : Q :=
  Qnat (doc_chars pages) / Qnat (length pages).

(** A page that reaches at least 5 meaningful elements. *)
Definition reaches_five (p : PageData) : bool :=
  (5 <=? length (filter meaningful (p_elements p)))%nat.

(** Text quality in the words of the specification: the element term is
    the fraction of pages with at least 5 meaningful elements. *)
Definition text_quality_as_specified (pages : list PageData) : Q :=
  0.6 * py_min 1 (avg_chars_per_page pages / 100)
  + 0.4 * py_min 1 (Qnat (length (filter reaches_five pages))
                    / Qnat (length pages)).

(** Text quality as the code computes it: the element term is the number of
    meaningful elements of the document against 5 per page. *)
Definition text_quality_formula (pages : list PageData) : Q :=
  0.6 * py_min 1 (avg_chars_per_page pages / 100)
  + 0.4 * py_min 1 (Qnat (length (filter meaningful (all_elements pages)))
                    / Qnat (length pages * 5)).

Definition plain_element (s : string) : Element :=
  mkElement text_elem (py s) (mkBBox 0 0 0 0) None None.

(** Two pages, ten three-letter elements on the first and none on the
    second. *)
Definition uneven_pages : list PageData :=
  [ mkPageData 1 600 800 (repeat (plain_element "abc") 10) [];
    mkPageData 2 600 800 [] [] ].

(** Scenario C: the grid [[["A","B"],["","D"]]]. *)
Definition scenario_C : TableData :=
  mkTableData [[Some (py "A"); Some (py "B")]; [Some (py ""); Some (py "D")]]
              2 2 (mkBBox 0 0 0 0).

(** ** Glyphs, lines and the page as pdfplumber gives it *)

(** An entry of [page.chars]. *)
Record Glyph := mkGlyph {
  g_text : pystr; g_x0 : Q; g_x1 : Q; g_top : Q; g_height : Q
}.

(** A line built by [group_text_by_lines]. *)
Record Line := mkLine {
  l_y : Q; l_x_min : Q; l_x_max : Q; l_height : Q;
  l_chars : list Glyph; l_text : pystr
}.

(** Value of a table-settings entry. *)
Inductive Setting := SStr (s : string) | SInt (n : Z).

(** The settings dictionary passed to [page.find_tables]. *)
Definition TableSettings := list (string * Setting).

(** A table found by pdfplumber: what [table.extract()] returns ([None] when
    it raises) and [table.bbox] = (x0, top, x1, bottom). *)
Record TableGeom := mkTableGeom {
  tg_extract : option Grid;
  tg_bbox : Q * Q * Q * Q
}.

(** A pdfplumber page; [pg_find_tables s] is [None] when
    [page.find_tables(s)] raises. *)
Record Page := mkPage {
  pg_width : Q;
  pg_height : Q;
  pg_chars : list Glyph;
  pg_find_tables : TableSettings -> option (list TableGeom)
}.

(** ** Glyph line grouper *)

(** The sort key [(round(c['top']), c['x0'])]. *)
Definition sort_key (c : Glyph) : Z * Q := (py_round (g_top c), g_x0 c).

(** Order of Python tuples. *)
Definition key_lt (a b : Z * Q) : bool :=
  (fst a <? fst b)%Z || ((fst a =? fst b)%Z && Qlt_bool (snd a) (snd b)).

(** [sorted] is stable: a glyph is placed before the first glyph whose key
    is not smaller than its own, and the glyphs are inserted from the last
    to the first. *)
Fixpoint insert_by_key (c : Glyph) (l : list Glyph) : list Glyph :=
  match l with
  | [] => [c]
  | d :: l' =>
      if key_lt (sort_key d) (sort_key c) then d :: insert_by_key c l'
      else c :: d :: l'
  end.

Definition sorted_chars (chars : list Glyph) : list Glyph :=
  fold_right insert_by_key [] chars.

Definition y_tolerance : Q := 2.

Definition new_line (c : Glyph) : Line :=
  mkLine (g_top c) (g_x0 c) (g_x1 c) (g_height c) [c] (g_text c).

Definition add_to_line (l : Line) (c : Glyph) : Line :=
  mkLine (l_y l) (py_min (l_x_min l) (g_x0 c)) (py_max (l_x_max l) (g_x1 c))
         (l_height l) (l_chars l ++ [c]) (l_text l ++ g_text c).

(** Body of the loop of [group_text_by_lines]; the state is
    [(lines, current_line)]. *)
Definition group_step (st : list Line * option Line) (c : Glyph)
  : list Line * option Line :=
  let '(lines, current_line) := st in
  let y := g_top c in
  match current_line with
  | None => (lines, Some (new_line c))
  | Some cur =>
      if Qlt_bool y_tolerance (Qabs (y - l_y cur))
      then (lines ++ [cur], Some (new_line c))
      else (lines, Some (add_to_line cur c))
  end.

Definition group_text_by_lines (chars : list Glyph) : list Line :=
  if negb (truthy chars) then []
  else
    let '(lines, current_line) :=
      fold_left group_step (sorted_chars chars) ([], None) in
    match current_line with
    | Some cur => lines ++ [cur]
    | None => lines
    end.

(** ** Structure classifier *)

Definition white_square : pystr := [9634%N].   (* U+25A2 *)
Definition black_square : pystr := [9632%N].   (* U+25A0 *)

Definition page_center (page : Page) : Q :=
  if Qeq_bool (pg_width page) 0 then 300 else pg_width page / 2.

Definition line_center (line : Line) : Q := (l_x_min line + l_x_max line) / 2.

Definition is_heading (text : pystr) (line : Line) (page : Page) : bool :=
  if startswith text white_square || startswith text black_square then true
  else if startswith text (py "- ") && endswith text (py " -")
          && (length text <? 10)%nat then true
  else if (length text <? 50)%nat
          && Qlt_bool (Qabs (line_center line - page_center page)) 50 then true
  else false.

Definition get_heading_level (text : pystr) (line : Line) : Z :=
  if startswith text white_square || startswith text black_square then 1
  else if startswith text (py "- ") && endswith text (py " -") then 3
  else 2.

(** The list markers: white circle, black circle, small black and white
    squares, white bullet, bullet, hyphen, asterisk. *)
Definition markers : list pystr :=
  [[9675%N]; [9679%N]; [9642%N]; [9643%N]; [9702%N]; [8226%N]; py "-"; py "*"].

Definition is_list_item (text : pystr) : bool :=
  existsb (fun marker =>
    startswith text (marker ++ py " ") || pystr_eqb text marker) markers.

Definition get_list_marker (text : pystr) : pystr :=
  match find (fun marker => startswith text marker) markers with
  | Some marker => marker
  | None => []
  end.

Definition similar_y (y : Q) (l : Line) : bool := Qlt_bool (Qabs (l_y l - y)) 2.

Definition is_table_row (line : Line) (all_lines : list Line) : bool :=
  let similar_y_lines := filter (similar_y (l_y line)) all_lines in
  (1 <? length similar_y_lines)%nat.

(** Body of the loop of [detect_structure]: the element appended for a
    line, [None] where the loop continues without appending. *)
Definition classify_line (lines : list Line) (page : Page) (line : Line)
  : option Element :=
  let text := strip (l_text line) in
  if negb (truthy text) then None
  else
    let bbox := mkBBox (l_x_min line) (l_y line)
                       (l_x_max line - l_x_min line) (l_height line) in
    Some
      (if is_heading text line page then
         mkElement heading text bbox (Some (get_heading_level text line)) None
       else if is_list_item text then
         mkElement list_item text bbox None (Some (get_list_marker text))
       else if is_table_row line lines then
         mkElement table_row text bbox None None
       else mkElement text_elem text bbox None None).

Definition detect_structure (lines : list Line) (page : Page) : list Element :=
  fold_left (fun elements line =>
    match classify_line lines page line with
    | Some element => elements ++ [element]
    | None => elements
    end) lines [].

(** A dozen characters between hyphens, centred on a page 600 wide. *)
Definition long_dash_text : pystr := py "- abcdefgh -".
Definition centred_line : Line :=
  mkLine 100 250 350 12 [] long_dash_text.
Definition empty_page : Page := mkPage 600 800 [] (fun _ => Some []).

(** The lines of a grouper state, the open line last. *)
Definition state_lines (st : list Line * option Line) : list Line :=
  match snd st with
  | Some cur => fst st ++ [cur]
  | None => fst st
  end.

(** A line is anchored at its first glyph and holds only glyphs within the
    tolerance of the anchor. *)
Definition line_anchored (l : Line) : Prop :=
  (exists c rest, l_chars l = c :: rest /\ l_y l = g_top c)
  /\ Forall (fun g => Qabs (g_top g - l_y l) <= 2) (l_chars l).

(** Consecutive anchors: the later one is more than the tolerance below. *)
Definition gap (a b : Q) : Prop := a + 2 < b.

Definition anchors (lines : list Line) : list Q := map l_y lines.

(** Order of the rounded tops, first component of the sort key. *)
Definition round_le (a b : Glyph) : Prop :=
  (py_round (g_top a) <= py_round (g_top b))%Z.

(** [page.chars if page.chars else []], grouped and classified as
    [extract_page_with_coords] does. *)
Definition page_elements (page : Page) : list Element :=
  detect_structure (group_text_by_lines (pg_chars page)) page.

(** ** Table strategy selector, union-with-dedup mode
    ([CoordinateBasedExtractor.extract_tables_with_coords]) *)

Definition coords_strategies : list TableSettings :=
  [ [ ("vertical_strategy", SStr "lines"); ("horizontal_strategy", SStr "lines");
      ("snap_tolerance", SInt 3); ("join_tolerance", SInt 3);
      ("edge_min_length", SInt 3) ];
    [ ("vertical_strategy", SStr "text"); ("horizontal_strategy", SStr "text");
      ("snap_tolerance", SInt 5); ("join_tolerance", SInt 5) ] ]%string.

(** The [x], [y], [width], [height] dictionary built from [table.bbox]. *)
Definition bbox_dict (b : Q * Q * Q * Q) : BBox :=
  let '(x0, y0, x1, y1) := b in mkBBox x0 y0 (x1 - x0) (y1 - y0).

(** [len(extracted[0]) if extracted else 0] *)
Definition first_row_length {A : Type} (g : list (list A)) : nat :=
  match g with
  | row :: _ => length row
  | [] => 0
  end.

(** The test of the duplicate loop: both corner coordinates less than 10
    apart. *)
Definition close_corner (existing table_data : TableData) : bool :=
  Qlt_bool (Qabs (b_x (t_bbox existing) - b_x (t_bbox table_data))) 10
  && Qlt_bool (Qabs (b_y (t_bbox existing) - b_y (t_bbox table_data))) 10.

Definition is_duplicate (tables : list TableData) (table_data : TableData) : bool :=
  existsb (fun existing => close_corner existing table_data) tables.

Definition coords_table_data (extracted : Grid) (bbox : Q * Q * Q * Q) : TableData :=
  mkTableData extracted (length extracted) (first_row_length extracted)
              (bbox_dict bbox).

(** Body of the loop over [page_tables] once [table.extract()] has
    returned [extracted]. *)
Definition accept_candidate (tables : list TableData)
           (c : Grid * (Q * Q * Q * Q)) : list TableData :=
  let '(extracted, bbox) := c in
  if truthy extracted && (0 <? length extracted)%nat then
    let non_empty := count_non_empty extracted in
    if (0 <? non_empty)%nat then
      let table_data := coords_table_data extracted bbox in
      if negb (is_duplicate tables table_data)
      then tables ++ [table_data] else tables
    else tables
  else tables.

(** The loop over [page_tables] inside the [try]: an exception of
    [table.extract()] ends it, the tables appended so far stay. *)
Fixpoint coords_tables_loop (page_tables : list TableGeom)
         (tables : list TableData) : list TableData :=
  match page_tables with
  | [] => tables
  | table :: rest =>
      match tg_extract table with
      | None => tables
      | Some extracted =>
          coords_tables_loop rest
            (accept_candidate tables (extracted, tg_bbox table))
      end
  end.

Definition coords_strategy_step (page : Page) (tables : list TableData)
           (strategy : TableSettings) : list TableData :=
  match pg_find_tables page strategy with
  | None => tables
  | Some page_tables => coords_tables_loop page_tables tables
  end.

Definition extract_tables_with_coords (page : Page) : list TableData :=
  fold_left (coords_strategy_step page) coords_strategies [].

(** The candidates a strategy extracts before its first exception. *)
Fixpoint extracted_prefix (page_tables : list TableGeom)
  : list (Grid * (Q * Q * Q * Q)) :=
  match page_tables with
  | [] => []
  | table :: rest =>
      match tg_extract table with
      | None => []
      | Some extracted => (extracted, tg_bbox table) :: extracted_prefix rest
      end
  end.

(** All candidates extracted for a page, in the order of the loops. *)
Definition extracted_candidates (page : Page) : list (Grid * (Q * Q * Q * Q)) :=
  flat_map (fun strategy =>
    match pg_find_tables page strategy with
    | None => []
    | Some page_tables => extracted_prefix page_tables
    end) coords_strategies.

(** The tables accepted from a sequence of candidates. *)
Definition accept_all (cands : list (Grid * (Q * Q * Q * Q))) : list TableData :=
  fold_left accept_candidate cands [].

(** Top-left corners within 10 units on both axes. *)
Definition near (a b : TableData) : Prop :=
  Qabs (b_x (t_bbox a) - b_x (t_bbox b)) < 10
  /\ Qabs (b_y (t_bbox a) - b_y (t_bbox b)) < 10.

(** ** Table strategy selector, best-of mode ([PDFExtractor.extract_tables]) *)

Definition best_strategies : list TableSettings :=
  [ [ ("vertical_strategy", SStr "lines"); ("horizontal_strategy", SStr "lines");
      ("snap_tolerance", SInt 3); ("join_tolerance", SInt 3);
      ("edge_min_length", SInt 3); ("min_words_vertical", SInt 0);
      ("min_words_horizontal", SInt 0) ];
    [ ("vertical_strategy", SStr "text"); ("horizontal_strategy", SStr "text");
      ("snap_tolerance", SInt 5); ("join_tolerance", SInt 5);
      ("edge_min_length", SInt 5); ("min_words_vertical", SInt 0);
      ("min_words_horizontal", SInt 0); ("text_tolerance", SInt 3);
      ("text_x_tolerance", SInt 5); ("text_y_tolerance", SInt 3) ];
    [ ("vertical_strategy", SStr "lines"); ("horizontal_strategy", SStr "text");
      ("snap_tolerance", SInt 3); ("join_tolerance", SInt 3);
      ("edge_min_length", SInt 3); ("min_words_vertical", SInt 0);
      ("min_words_horizontal", SInt 0) ] ]%string.

(** An entry of [current_tables] ([table], [data], [score]). *)
Record Candidate := mkCandidate {
  c_table : TableGeom;
  c_data : Grid;
  c_score : float
}.

(** An entry of the list [extract_tables] returns. *)
Record SelectedTable := mkSelectedTable {
  s_index : nat;
  s_data : list (list pystr);
  s_rows : nat;
  s_cols : nat;
  s_position : BBox
}.

(** [len(extracted) * (len(extracted[0]) if extracted else 0)] *)
Definition total_cells (extracted : Grid) : nat :=
  length extracted * first_row_length extracted.

(** [fill_ratio * total_cells] as [extract_tables] computes it: the true
    division of the two counters, then the product with [total_cells], each
    rounded to a double. *)
Definition candidate_score (extracted : Grid) : float :=
  let non_empty_cells := count_non_empty extracted in
  let fill_ratio :=
    (py_float non_empty_cells / py_float (total_cells extracted))%float in
  (fill_ratio * py_float (total_cells extracted))%float.

(** Body of the loop over [page_tables] once [table.extract()] has
    returned; the state is [(current_tables, current_score)]. *)
Definition score_candidate (st : list Candidate * float) (table : TableGeom)
           (extracted : Grid) : list Candidate * float :=
  let '(current_tables, current_score) := st in
  if truthy extracted && (0 <? length extracted)%nat then
    if (0 <? total_cells extracted)%nat then
      let score := candidate_score extracted in
      (current_tables ++ [mkCandidate table extracted score],
       (current_score + score)%float)
    else st
  else st.

(** The loop over [page_tables]; [None] when a [table.extract()] raises. *)
Fixpoint best_tables_loop (page_tables : list TableGeom)
         (st : list Candidate * float) : option (list Candidate * float) :=
  match page_tables with
  | [] => Some st
  | table :: rest =>
      match tg_extract table with
      | None => None
      | Some extracted => best_tables_loop rest (score_candidate st table extracted)
      end
  end.

(** One strategy: its candidates and summed score, [None] when the body of
    the [try] raises. *)
Definition strategy_result (page : Page) (table_settings : TableSettings)
  : option (list Candidate * float) :=
  match pg_find_tables page table_settings with
  | None => None
  | Some page_tables => best_tables_loop page_tables ([], 0%float)
  end.

(** Body of the loop over the strategies; the state is
    [(best_tables, best_score)]. *)
Definition keep_best (best : list Candidate * float)
           (result : option (list Candidate * float)) : list Candidate * float :=
  match result with
  | None => best
  | Some (current_tables, current_score) =>
      if PrimFloat.ltb (snd best) current_score
      then (current_tables, current_score) else best
  end.

Definition best_strategy_step (page : Page) (best : list Candidate * float)
           (table_settings : TableSettings) : list Candidate * float :=
  keep_best best (strategy_result page table_settings).

Definition clean_cell (cell : Cell) : pystr :=
  match cell with
  | None => []
  | Some s => strip s
  end.

Definition clean_table (table_data : Grid) : list (list pystr) :=
  if negb (truthy table_data) then []
  else
    let cleaned := map (map clean_cell) table_data in
    filter (fun row => existsb truthy row) cleaned.

(** Body of the loop over [best_tables]. *)
Definition emit_table (tables : list SelectedTable) (table_info : Candidate)
  : list SelectedTable :=
  let cleaned_table := clean_table (c_data table_info) in
  if truthy cleaned_table then
    tables ++ [mkSelectedTable (length tables) cleaned_table
                 (length cleaned_table) (first_row_length cleaned_table)
                 (bbox_dict (tg_bbox (c_table table_info)))]
  else tables.

Definition emit_tables (best_tables : list Candidate) : list SelectedTable :=
  fold_left emit_table best_tables [].

Definition extract_tables (page : Page) : list SelectedTable :=
  emit_tables
    (fst (fold_left (best_strategy_step page) best_strategies ([], 0%float))).

(** Results of the strategies in priority order. *)
Definition strategy_results (page : Page)
  : list (option (list Candidate * float)) :=
  map (strategy_result page) best_strategies.

(** Sum of the scores of a candidate set, added in order from 0. *)
Definition summed_score (cands : list Candidate) : float :=
  fold_left PrimFloat.add (map c_score cands) 0%float.

(** The candidates of a strategy in the words of the specification: every
    table found, with the grid extracted from it, that has cells, scored
    [fill_ratio * total_cells] with [fill_ratio] the non-empty cells over
    the total cells. *)
Definition scored_tables (found : list (TableGeom * Grid)) : list Candidate :=
  map (fun tg =>
         mkCandidate (fst tg) (snd tg)
           (py_float (count_non_empty (snd tg))
            / py_float (total_cells (snd tg))
            * py_float (total_cells (snd tg)))%float)
      (filter (fun tg => (0 <? total_cells (snd tg))%nat) found).

(** Every row has the same number of columns. *)
Definition rectangular {A : Type} (g : list (list A)) : Prop :=
  forall r1 r2, In r1 g -> In r2 g -> length r1 = length r2.

(** All grids extracted for a page in best-of mode. *)
Definition best_extracted (page : Page) : list Grid :=
  flat_map (fun s =>
    match pg_find_tables page s with
    | None => []
    | Some page_tables =>
        flat_map (fun t => match tg_extract t with
                           | Some g => [g]
                           | None => []
                           end) page_tables
    end) best_strategies.

(** A page on which every strategy finds one table whose second row is
    longer than its first. *)
Definition ragged_grid : Grid :=
  [[Some (py "a")]; [Some (py "b"); Some (py "c")]].

Definition ragged_page : Page :=
  mkPage 600 800 []
         (fun _ => Some [mkTableGeom (Some ragged_grid) (10, 20, 110, 70)]).

(** ** Document extraction and the quality gate
    ([CoordinateBasedExtractor.extract], [main]) *)

Definition extract_page_with_coords (page : Page) (page_num : nat) : PageData :=
  mkPageData page_num
    (if Qeq_bool (pg_width page) 0 then 0 else pg_width page)
    (if Qeq_bool (pg_height page) 0 then 0 else pg_height page)
    (detect_structure (group_text_by_lines (pg_chars page)) page)
    (extract_tables_with_coords page).

(** Reading one page of the open document: pdfplumber raises with a
    message, or gives the page. *)
Inductive PageLoad := PageFault (msg : pystr) | PageOk (page : Page).

(** The file as pdfplumber sees it: [pdfplumber.open] raises with a
    message, or the document opens on a sequence of pages. *)
Inductive Document := OpenFault (msg : pystr) | Opened (pages : list PageLoad).

(** The result dictionary; [filename] and [metadata] are copied from the
    path and from pdfplumber and are left out.  [r_quality] holds the score
    and the report; the report is the extractor's own [quality_report]
    object, so what is appended to it after the assessment shows in the
    result. *)
Record Result := mkResult {
  r_success : bool;
  r_pages : list PageData;
  r_error : option pystr;
  r_quality : option (Q * QualityReport)
}.

(** The loop over [pdf.pages]: the pages appended so far and the message
    of the exception that ended the loop, if any. *)
Fixpoint process_pages (loads : list PageLoad) (page_num : nat)
         (pages : list PageData) : list PageData * option pystr :=
  match loads with
  | [] => (pages, None)
  | PageFault msg :: _ => (pages, Some msg)
  | PageOk page :: rest =>
      process_pages rest (S page_num)
                    (pages ++ [extract_page_with_coords page page_num])
  end.

Definition quality_msg (quality_score min_quality : Q) : pystr :=
  py "Quality too low: " ++ fmt_2f quality_score ++ py " (minimum: "
  ++ fmt_2f min_quality ++ py ")".

Definition extract (doc : Document) (min_quality : Q) (strict : bool) : Result :=
  match doc with
  | OpenFault msg => mkResult false [] (Some msg) None
  | Opened loads =>
      match process_pages loads 1 [] with
      | (pages, Some msg) => mkResult false pages (Some msg) None
      | (pages, None) =>
          let '(quality_score, report) := assess_quality pages initial_report in
          if Qlt_bool quality_score min_quality then
            let error_msg := quality_msg quality_score min_quality in
            if strict then
              mkResult false pages (Some error_msg)
                       (Some (quality_score, add_error report error_msg))
            else
              mkResult true pages None
                       (Some (quality_score, add_warning report error_msg))
          else mkResult true pages None (Some (quality_score, report))
      end
  end.

(** The command line after parsing, with whether the path exists. *)
Record Args := mkArgs {
  a_pdf_file : pystr;
  a_file_exists : bool;
  a_strict : bool;
  a_min_quality : Q;
  a_ignore_quality : bool
}.

Definition effective_min_quality (args : Args) : Q :=
  if a_ignore_quality args then 0 else a_min_quality args.

Definition effective_strict (args : Args) : bool :=
  if a_ignore_quality args then false else a_strict args.

Definition exit_code_of (args : Args) (result : Result) : Z :=
  if negb (r_success result) then
    let error := match r_error result with Some e => e | None => [] end in
    if contains (lower error) (py "quality too low") then 3 else 1
  else
    match r_quality result with
    | Some (quality_score, _) =>
        if Qlt_bool quality_score (effective_min_quality args)
           && negb (a_ignore_quality args)
        then 2 else 0
    | None => 0
    end.

(** [main] from the parsed arguments on: the result, and the exit code
    passed to [sys.exit] at line 499 or line 552.  The parsing of the
    command line before it and the writing of the output in between are
    not part of it. *)
Definition main (args : Args) (doc : Document) : Z * Result :=
  if negb (a_file_exists args) then
    (1%Z, mkResult false [] (Some (py "File not found: " ++ a_pdf_file args)) None)
  else
    let result :=
      extract doc (effective_min_quality args) (effective_strict args) in
    (exit_code_of args result, result).

(** A path that exists and is a directory: opening it raises
    [IsADirectoryError] with the path in the message. *)
Definition directory_args : Args :=
  mkArgs (py "quality too low") true false 0.2 false.
Definition directory_fault : Document :=
  OpenFault (py "[Errno 21] Is a directory: 'quality too low'").

(** A document of one empty page, scored 0. *)
Definition blank_document : Document := Opened [PageOk empty_page].
Definition strict_args : Args := mkArgs (py "blank.pdf") true true 0.5 false.
Definition lenient_args : Args := mkArgs (py "blank.pdf") true false 0.5 false.

(** ** Sample inputs *)

Definition lookup_setting (key : string) (s : TableSettings) : option Setting :=
  match find (fun kv => String.eqb (fst kv) key) s with
  | Some kv => Some (snd kv)
  | None => None
  end.

Definition setting_is (key value : string) (s : TableSettings) : bool :=
  match lookup_setting key s with
  | Some (SStr v) => String.eqb v value
  | _ => false
  end.

Definition sparse_grid : Grid :=
  [[Some (py "Name"); None]; [Some (py " "); Some (py "")]].

Definition dense_grid : Grid :=
  [[Some (py "Name"); Some (py "Qty")]; [Some (py "Bolt"); None]].

Definition sparse_table : TableGeom := mkTableGeom (Some sparse_grid) (10, 20, 110, 70).
Definition dense_table : TableGeom := mkTableGeom (Some dense_grid) (12, 22, 112, 72).
Definition mixed_table : TableGeom := mkTableGeom (Some dense_grid) (10, 20, 110, 70).

(** A page on which the border-line strategy finds a sparse table, the
    text strategy a denser one a few units away, and the mixed strategy the
    denser grid again. *)
Definition sample_page : Page :=
  mkPage 600 800
    [ mkGlyph (py "N") 10 20 150 12; mkGlyph (py "I") 10 20 100 12 ]
    (fun s =>
       if setting_is "vertical_strategy" "lines" s then
         if setting_is "horizontal_strategy" "lines" s
         then Some [sparse_table] else Some [mixed_table]
       else Some [dense_table]).

Definition dense_candidates : list Candidate :=
  [mkCandidate dense_table dense_grid (candidate_score dense_grid)].

(** ** Further quantities used to state properties of the assessors *)

Definition is_heading_elem (e : Element) : bool :=
  match e_type e with heading => true | _ => false end.

Definition is_list_elem (e : Element) : bool :=
  match e_type e with list_item => true | _ => false end.

(** The entry [assess_quality] appends to [table_scores] for a table. *)
Definition table_score_entry (pt : nat * TableData) : TableScore :=
  mkTableScore (fst pt) (t_rows (snd pt)) (t_cols (snd pt))
               (assess_table_quality (snd pt)).

(** A table whose quality is under 0.1. *)
Definition mostly_empty (pt : nat * TableData) : bool :=
  Qlt_bool (assess_table_quality (snd pt)) 0.1.

Definition mostly_empty_warning (pt : nat * TableData) : pystr :=
  mostly_empty_msg (fst pt) (t_rows (snd pt)) (t_cols (snd pt))
                   (assess_table_quality (snd pt)).


(** ** Further quantities used to state properties of the grouper *)

(** What a line records about its glyphs: the text is the glyph texts in
    order, [x_min] and [x_max] bound the glyph boxes and are taken from
    glyphs of the line, the height is that of the first glyph. *)
Definition line_covers (l : Line) : Prop :=
  l_text l = concat (map g_text (l_chars l))
  /\ (forall g, In g (l_chars l) ->
        l_x_min l <= g_x0 g /\ g_x1 g <= l_x_max l)
  /\ (exists g, In g (l_chars l) /\ l_x_min l = g_x0 g)
  /\ (exists g, In g (l_chars l) /\ l_x_max l = g_x1 g)
  /\ (exists c rest, l_chars l = c :: rest /\ l_height l = g_height c).

(** Order of the sort keys: [a] does not come after [b]. *)
Definition key_le (a b : Glyph) : Prop :=
  key_lt (sort_key b) (sort_key a) = false.

(** Five glyphs on two rows, given out of order. *)
Definition two_row_chars : list Glyph :=
  [ mkGlyph (py "N") 10 20 150 12; mkGlyph [9679%N] 10 20 100 12;
    mkGlyph (py "o") 20 30 (1504 # 10) 12; mkGlyph (py " ") 20 30 100 12;
    mkGlyph (py "I") 30 40 (1002 # 10) 12 ].

(** ** Further quantities used to state properties of the classifier *)

(** The bounding box [detect_structure] gives the element of a line. *)
Definition line_bbox (line : Line) : BBox :=
  mkBBox (l_x_min line) (l_y line) (l_x_max line - l_x_min line) (l_height line).

(** A line whose trimmed text is not empty. *)
Definition line_has_text (line : Line) : bool := truthy (strip (l_text line)).

(** What an element carries besides its content and box, by type. *)
Definition payload_ok (e : Element) : Prop :=
  match e_type e with
  | heading =>
      (e_level e = Some 1%Z \/ e_level e = Some 2%Z \/ e_level e = Some 3%Z)
      /\ e_marker e = None
  | list_item =>
      e_level e = None
      /\ exists c rest, e_content e = c :: rest /\ e_marker e = Some [c]
                        /\ In [c] markers
  | _ => e_level e = None /\ e_marker e = None
  end.


(** ** Further quantities used to state properties of the extraction *)

(** The pages read before the first exception. *)
Fixpoint loaded_prefix (loads : list PageLoad) : list Page :=
  match loads with
  | PageOk page :: rest => page :: loaded_prefix rest
  | _ => []
  end.

(** The message of the first exception, if a page raises. *)
Fixpoint first_fault (loads : list PageLoad) : option pystr :=
  match loads with
  | [] => None
  | PageFault msg :: _ => Some msg
  | PageOk _ :: rest => first_fault rest
  end.

(** Pages paired with their numbers, counted from [start]. *)
Definition numbered (start : nat) (pages : list Page) : list (nat * Page) :=
  combine (seq start (length pages)) pages.

(** A document whose third page cannot be read. *)
Definition broken_document : Document :=
  Opened [PageOk sample_page; PageOk empty_page;
          PageFault (py "No /Root object"); PageOk ragged_page].

Definition ignore_args : Args := mkArgs (py "blank.pdf") true true 0.5 true.

(** ** Further quantities used to state properties of best-of mode *)

(** A cleaned grid read again as an extracted grid. *)
Definition as_extracted (g : list (list pystr)) : Grid := map (map Some) g.


(** ** Document extraction without coordinates
    ([PDFExtractor.extract_page], [PDFExtractor.extract]) *)

(** [page_data] of [PDFExtractor.extract_page]. *)
Record PlainPageData := mkPlainPageData {
  pp_number : nat;
  pp_text : pystr;
  pp_tables : list SelectedTable;
  pp_width : Q;
  pp_height : Q
}.

(** [text] is what [page.extract_text()] returns, [None] or a string. *)
Definition extract_page (page : Page) (text : option pystr) (page_num : nat)
  : PlainPageData :=
  mkPlainPageData page_num
    (match text with
     | Some t => if truthy t then t else []
     | None => []
     end)
    (extract_tables page)
    (if Qeq_bool (pg_width page) 0 then 0 else pg_width page)
    (if Qeq_bool (pg_height page) 0 then 0 else pg_height page).

(** Reading one page: pdfplumber raises with a message, or gives the page
    and its text. *)
Inductive PlainLoad :=
| PlainFault (msg : pystr)
| PlainOk (page : Page) (text : option pystr).

Inductive PlainDocument :=
| PlainOpenFault (msg : pystr)
| PlainOpened (pages : list PlainLoad).

(** The result dictionary of [PDFExtractor.extract], without [filename]
    and [metadata]. *)
Record PlainResult := mkPlainResult {
  pr_success : bool;
  pr_pages : list PlainPageData;
  pr_error : option pystr
}.

Fixpoint plain_process_pages (loads : list PlainLoad) (page_num : nat)
         (pages : list PlainPageData) : list PlainPageData * option pystr :=
  match loads with
  | [] => (pages, None)
  | PlainFault msg :: _ => (pages, Some msg)
  | PlainOk page text :: rest =>
      plain_process_pages rest (S page_num)
                          (pages ++ [extract_page page text page_num])
  end.

Definition plain_extract (doc : PlainDocument) : PlainResult :=
  match doc with
  | PlainOpenFault msg => mkPlainResult false [] (Some msg)
  | PlainOpened loads =>
      match plain_process_pages loads 1 [] with
      | (pages, Some msg) => mkPlainResult false pages (Some msg)
      | (pages, None) => mkPlainResult true pages None
      end
  end.

(** Two pages read, the third raises. *)
Definition plain_broken_document : PlainDocument :=
  PlainOpened [PlainOk sample_page (Some (py "Name Qty")); PlainOk empty_page None;
               PlainFault (py "No /Root object")].

(** ** Sample inputs for the score bounds *)

(** A full grid of twelve cells. *)
Definition full_table : TableData :=
  mkTableData (repeat (repeat (Some (py "x")) 4) 3) 3 4 (mkBBox 0 0 0 0).

(** A document of one page with a table. *)
Definition table_loads : list PageLoad := [PageOk sample_page].

(** A page on which the border-line strategy finds two tables whose
    corners are exactly 10 units apart on the x axis and equal on the y
    axis. *)
Definition ten_apart_page : Page :=
  mkPage 600 800 []
    (fun s =>
       if setting_is "vertical_strategy" "lines" s
       then Some [mkTableGeom (Some dense_grid) (0, 0, 100, 50);
                  mkTableGeom (Some dense_grid) (10, 0, 110, 50)]
       else Some []).

(** A page on which the border-line strategy finds a row of 49 cells with
    one cell filled and the text strategy a single filled cell: both have
    one non-empty cell. *)
Definition one_of_49 : Grid := [Some (py "x") :: repeat None 48].
Definition one_of_1 : Grid := [[Some (py "x")]].

Definition rounding_page : Page :=
  mkPage 600 800 []
    (fun s =>
       if setting_is "vertical_strategy" "lines" s then
         if setting_is "horizontal_strategy" "lines" s
         then Some [mkTableGeom (Some one_of_49) (0, 0, 490, 10)]
         else Some []
       else Some [mkTableGeom (Some one_of_1) (0, 0, 10, 10)]).

(** * Properties *)

(** ** Facts about the arithmetic helpers *)

Lemma Qlt_bool_iff (a b : Q) : Qlt_bool a b = true <-> a < b.
Proof.
  unfold Qlt_bool. rewrite negb_true_iff. split; intro H.
  - apply Qnot_le_lt. intro L. apply Qle_bool_iff in L. congruence.
  - destruct (Qle_bool b a) eqn:E; [|reflexivity].
    apply Qle_bool_iff in E. exfalso. apply (Qlt_not_le _ _ H E).
Qed.

Lemma Qlt_bool_false (a b : Q) : Qlt_bool a b = false <-> b <= a.
Proof.
  unfold Qlt_bool. rewrite negb_false_iff. apply Qle_bool_iff.
Qed.

Lemma Qnat_nonneg (n : nat) : 0 <= Qnat n.
Proof.
  unfold Qnat. change 0 with (inject_Z 0). rewrite <- Zle_Qle. lia.
Qed.

Lemma Qnat_pos (n : nat) : (0 < n)%nat -> 0 < Qnat n.
Proof.
  intro H. unfold Qnat. change 0 with (inject_Z 0). rewrite <- Zlt_Qlt. lia.
Qed.

Lemma Qnat_le (n m : nat) : (n <= m)%nat -> Qnat n <= Qnat m.
Proof.
  intro H. unfold Qnat. rewrite <- Zle_Qle. lia.
Qed.

Lemma Qdiv_nonneg (a b : Q) : 0 <= a -> 0 < b -> 0 <= a / b.
Proof.
  intros Ha Hb. apply Qle_shift_div_l; [exact Hb|]. lra.
Qed.

Lemma Qdiv_le_1 (a b : Q) : a <= b -> 0 < b -> a / b <= 1.
Proof.
  intros Ha Hb. apply Qle_shift_div_r; [exact Hb|]. lra.
Qed.

Lemma py_min_1_bounds (x : Q) : 0 <= x -> 0 <= py_min 1 x <= 1.
Proof.
  intro Hx. unfold py_min. destruct (Qlt_bool x 1) eqn:E.
  - apply Qlt_bool_iff in E. lra.
  - lra.
Qed.

Lemma py_min_1_mono (x y : Q) : x <= y -> py_min 1 x <= py_min 1 y.
Proof.
  intro H. unfold py_min.
  destruct (Qlt_bool x 1) eqn:Ex; destruct (Qlt_bool y 1) eqn:Ey;
    try apply Qlt_bool_iff in Ex; try apply Qlt_bool_iff in Ey;
    try apply Qlt_bool_false in Ex; try apply Qlt_bool_false in Ey; lra.
Qed.

(** ** The counters of [assess_table_quality] as list functions *)

Lemma count_total_concat (d : Grid) : count_total d = length (concat d).
Proof.
  unfold count_total.
  assert (inner : forall (row : list Cell) n,
             fold_left (fun n _ => S n) row n = (n + length row)%nat).
  { induction row as [|c row IH]; intro n; simpl; [lia|]. rewrite IH. lia. }
  assert (outer : forall (g : Grid) n,
             fold_left (fun n row => fold_left (fun n _ => S n) row n) g n
             = (n + length (concat g))%nat).
  { induction g as [|row g IH]; intro n; simpl; [lia|].
    rewrite IH, inner, length_app. lia. }
  apply outer.
Qed.

Lemma count_non_empty_concat (d : Grid) :
  count_non_empty d = length (filter cell_filled (concat d)).
Proof.
  unfold count_non_empty.
  assert (inner : forall (row : list Cell) n,
             fold_left (fun n c => if cell_filled c then S n else n) row n
             = (n + length (filter cell_filled row))%nat).
  { induction row as [|c row IH]; intro n; simpl; [lia|]. rewrite IH.
    destruct (cell_filled c); simpl; lia. }
  assert (outer : forall (g : Grid) n,
             fold_left (fun n row =>
               fold_left (fun n c => if cell_filled c then S n else n) row n) g n
             = (n + length (filter cell_filled (concat g)))%nat).
  { induction g as [|row g IH]; intro n; simpl; [lia|].
    rewrite IH, inner, filter_app, length_app. lia. }
  apply outer.
Qed.

Lemma count_non_empty_le_total (d : Grid) :
  (count_non_empty d <= count_total d)%nat.
Proof.
  rewrite count_non_empty_concat, count_total_concat. apply filter_length_le.
Qed.

Lemma fill_ratio_bounds (d : Grid) :
  count_total d <> 0%nat -> 0 <= fill_ratio d <= 1.
Proof.
  intro H. unfold fill_ratio.
  assert (0 < Qnat (count_total d)) by (apply Qnat_pos; lia).
  split.
  - apply Qdiv_nonneg; [apply Qnat_nonneg | assumption].
  - apply Qdiv_le_1; [apply Qnat_le, count_non_empty_le_total | assumption].
Qed.

Lemma size_factor_bounds (t : TableData) : 0 <= size_factor t <= 1.
Proof.
  unfold size_factor. apply py_min_1_bounds.
  apply Qdiv_nonneg; [apply Qnat_nonneg | lra].
Qed.

Lemma assess_table_quality_bounds (t : TableData) :
  0 <= assess_table_quality t <= 1.
Proof.
  unfold assess_table_quality.
  destruct (negb (truthy (t_data t))); [lra|].
  destruct (count_total (t_data t) =? 0)%nat eqn:E; [lra|].
  apply Nat.eqb_neq in E.
  pose proof (fill_ratio_bounds _ E) as [F0 F1].
  pose proof (size_factor_bounds t) as [S0 S1].
  split; nra.
Qed.

(** ** Table quality *)

Lemma table_quality_nonzero (t : TableData) :
  count_total (t_data t) <> 0%nat ->
  assess_table_quality t = fill_ratio (t_data t) * (0.7 + 0.3 * size_factor t).
Proof.
  intro H. unfold assess_table_quality.
  destruct (t_data t) as [|row g] eqn:D.
  - exfalso. apply H. reflexivity.
  - simpl negb. cbv iota. apply Nat.eqb_neq in H. rewrite H. reflexivity.
Qed.

Lemma table_quality_zero (t : TableData) :
  count_total (t_data t) = 0%nat -> assess_table_quality t = 0.
Proof.
  intro H. unfold assess_table_quality.
  destruct (negb (truthy (t_data t))); [reflexivity|].
  rewrite H. reflexivity.
Qed.

(** C8. Per-table quality is [fill_ratio * (0.7 + 0.3 * min(1, rows*cols/10))],
    and 0 for a table without cells; for tables with cells it does not
    decrease when the fill ratio grows at equal [rows] and [cols], nor when
    [rows * cols] grows at equal fill ratio; the 2x2 grid of scenario C with
    3 of 4 cells filled scores 0.615. *)
Theorem table_quality_formula_and_monotone :
  (forall t, count_total (t_data t) = 0%nat -> assess_table_quality t == 0)
  /\ (forall t, count_total (t_data t) <> 0%nat ->
        assess_table_quality t ==
        fill_ratio (t_data t)
        * (0.7 + 0.3 * py_min 1 (Qnat (t_rows t * t_cols t) / 10)))
  /\ (forall t1 t2,
        count_total (t_data t1) <> 0%nat -> count_total (t_data t2) <> 0%nat ->
        t_rows t1 = t_rows t2 -> t_cols t1 = t_cols t2 ->
        fill_ratio (t_data t1) <= fill_ratio (t_data t2) ->
        assess_table_quality t1 <= assess_table_quality t2)
  /\ (forall t1 t2,
        count_total (t_data t1) <> 0%nat -> count_total (t_data t2) <> 0%nat ->
        fill_ratio (t_data t1) == fill_ratio (t_data t2) ->
        (t_rows t1 * t_cols t1 <= t_rows t2 * t_cols t2)%nat ->
        assess_table_quality t1 <= assess_table_quality t2)
  /\ fill_ratio (t_data scenario_C) == 0.75
  /\ assess_table_quality scenario_C == 0.615.
Proof.
  split; [|split; [|split; [|split; [|split]]]].
  - intros t H. rewrite (table_quality_zero t H). reflexivity.
  - intros t H. rewrite (table_quality_nonzero t H). reflexivity.
  - intros t1 t2 H1 H2 Hr Hc Hf.
    rewrite (table_quality_nonzero t1 H1), (table_quality_nonzero t2 H2).
    unfold size_factor. rewrite Hr, Hc.
    pose proof (size_factor_bounds t2) as [S0 _]. unfold size_factor in S0.
    nra.
  - intros t1 t2 H1 H2 Hf Hs.
    rewrite (table_quality_nonzero t1 H1), (table_quality_nonzero t2 H2).
    pose proof (fill_ratio_bounds _ H2) as [F0 _].
    assert (M : size_factor t1 <= size_factor t2).
    { unfold size_factor. apply py_min_1_mono.
      apply Qmult_le_compat_r; [apply Qnat_le, Hs | vm_compute; discriminate]. }
    rewrite Hf. nra.
  - vm_compute. reflexivity.
  - vm_compute. reflexivity.
Qed.

Lemma table_quality_formula_and_monotone_witness :
  assess_table_quality scenario_C <= assess_table_quality scenario_C.
Proof.
  destruct table_quality_formula_and_monotone as (_ & _ & M & _).
  apply (M scenario_C scenario_C);
    first [ vm_compute; discriminate | reflexivity ].
Defined.

(** ** Text quality *)

Lemma text_step_fold (l : list Element) (c m : nat) :
  fold_left text_step l (c, m)
  = ((c + list_sum (map (fun e => length (strip (e_content e))) l))%nat,
     (m + length (filter meaningful l))%nat).
Proof.
  revert c m. induction l as [|e l IH]; intros c m; simpl.
  - f_equal; lia.
  - unfold meaningful at 1.
    destruct (strip (e_content e)) as [|a s] eqn:S; simpl truthy; cbv iota.
    + rewrite IH. simpl. f_equal; lia.
    + rewrite IH.
      destruct (2 <? length (a :: s))%nat; simpl length; f_equal; lia.
Qed.

Lemma text_counters_spec (pages : list PageData) :
  text_counters pages
  = (doc_chars pages, length (filter meaningful (all_elements pages))).
Proof.
  unfold text_counters, doc_chars, all_elements.
  assert (G : forall ps c m,
    fold_left (fun st p => fold_left text_step (p_elements p) st) ps (c, m)
    = ((c + list_sum (map (fun e => length (strip (e_content e)))
                          (flat_map p_elements ps)))%nat,
       (m + length (filter meaningful (flat_map p_elements ps)))%nat)).
  { induction ps as [|p ps IH]; intros c m; simpl.
    - f_equal; lia.
    - rewrite text_step_fold, IH.
      rewrite map_app, list_sum_app, filter_app, length_app. f_equal; lia. }
  apply G.
Qed.

Lemma py_min_1_compat (x y : Q) : x == y -> py_min 1 x == py_min 1 y.
Proof.
  intro H. unfold py_min.
  destruct (Qlt_bool x 1) eqn:Ex; destruct (Qlt_bool y 1) eqn:Ey;
    try apply Qlt_bool_iff in Ex; try apply Qlt_bool_iff in Ey;
    try apply Qlt_bool_false in Ex; try apply Qlt_bool_false in Ey; lra.
Qed.

Lemma py_min_1_of_zero (x : Q) : x == 0 -> py_min 1 x == 0.
Proof. intro H. rewrite (py_min_1_compat x 0 H). reflexivity. Qed.

Lemma assess_text_quality_formula (pages : list PageData) :
  pages <> [] -> assess_text_quality pages == text_quality_formula pages.
Proof.
  intro NE. unfold assess_text_quality, text_quality_formula.
  rewrite text_counters_spec. unfold avg_chars_per_page.
  destruct (doc_chars pages =? 0)%nat eqn:E.
  - apply Nat.eqb_eq in E. rewrite E.
    assert (M : filter meaningful (all_elements pages) = []).
    { unfold doc_chars in E. revert E.
      induction (all_elements pages) as [|e l IH]; intro E; [reflexivity|].
      simpl in E. simpl. unfold meaningful at 1.
      destruct (length (strip (e_content e))) eqn:L; [|lia].
      simpl. apply IH. lia. }
    rewrite M. simpl length.
    rewrite (py_min_1_of_zero (Qnat 0 / Qnat (length pages) / 100)),
            (py_min_1_of_zero (Qnat 0 / Qnat (length pages * 5)));
      [lra | | ]; unfold Qdiv; change (Qnat 0) with 0; rewrite !Qmult_0_l;
      reflexivity.
  - destruct (length pages =? 0)%nat eqn:P.
    + apply Nat.eqb_eq in P. destruct pages; [congruence | discriminate].
    + lra.
Qed.

Lemma assess_text_quality_bounds (pages : list PageData) :
  0 <= assess_text_quality pages <= 1.
Proof.
  unfold assess_text_quality.
  destruct (text_counters pages) as [c m].
  destruct (c =? 0)%nat; [lra|].
  destruct (length pages =? 0)%nat eqn:P; [lra|].
  apply Nat.eqb_neq in P.
  assert (B1 : 0 <= py_min 1 (Qnat c / Qnat (length pages) / 100) <= 1).
  { apply py_min_1_bounds. apply Qdiv_nonneg; [|lra].
    apply Qdiv_nonneg; [apply Qnat_nonneg | apply Qnat_pos; lia]. }
  assert (B2 : 0 <= py_min 1 (Qnat m / Qnat (length pages * 5)) <= 1).
  { apply py_min_1_bounds.
    apply Qdiv_nonneg; [apply Qnat_nonneg | apply Qnat_pos; lia]. }
  lra.
Qed.

(** C2, as the specification words it, fails: with ten meaningful elements
    on the first of two pages and none on the second the code gives 0.49,
    the fraction of pages reaching five elements gives 0.29. *)
Lemma text_quality_not_page_fraction :
  ~ (forall pages,
       assess_text_quality pages == text_quality_as_specified pages).
Proof.
  intro H. specialize (H uneven_pages). vm_compute in H. discriminate H.
Qed.

(** C2, amended. Text quality is
    [0.6 * min(1, avg_chars_per_page / 100)
     + 0.4 * min(1, meaningful_elements / (5 * pages))],
    where [meaningful_elements] counts the elements of the whole document
    whose trimmed content is longer than 2 characters; a document without
    pages scores 0. *)
Theorem text_quality_total_elements (pages : list PageData) :
  (pages = [] -> assess_text_quality pages == 0)
  /\ (pages <> [] ->
      assess_text_quality pages ==
      0.6 * py_min 1 (avg_chars_per_page pages / 100)
      + 0.4 * py_min 1 (Qnat (length (filter meaningful (all_elements pages)))
                        / Qnat (length pages * 5)))
  /\ assess_text_quality uneven_pages == 0.49.
Proof.
  split; [|split].
  - intros ->. reflexivity.
  - intro NE. apply (assess_text_quality_formula pages NE).
  - vm_compute. reflexivity.
Qed.

Lemma text_quality_total_elements_witness :
  assess_text_quality uneven_pages ==
  0.6 * py_min 1 (avg_chars_per_page uneven_pages / 100)
  + 0.4 * py_min 1 (Qnat (length (filter meaningful (all_elements uneven_pages)))
                    / Qnat (length uneven_pages * 5)).
Proof.
  apply (proj1 (proj2 (text_quality_total_elements uneven_pages))).
  discriminate.
Defined.

(** ** Aggregation *)

Lemma table_step_fold (l : list (nat * TableData)) (n : nat) (s : Q)
      (r : QualityReport) :
  fst (fold_left table_step l (n, s, r))
  = ((n + length l)%nat,
     fold_left Qplus (map assess_table_quality (map snd l)) s).
Proof.
  revert n s r. induction l as [|[pn t] l IH]; intros n s r.
  - simpl. f_equal. lia.
  - cbn [fold_left table_step map snd length]. rewrite IH. f_equal. lia.
Qed.

Lemma tables_in_order_snd (pages : list PageData) :
  map snd (tables_in_order pages) = all_tables pages.
Proof.
  unfold tables_in_order, all_tables.
  induction pages as [|p ps IH]; [reflexivity|].
  simpl. rewrite map_app, IH, map_map. simpl. rewrite map_id. reflexivity.
Qed.

Lemma Qnat_S (n : nat) : Qnat (S n) == Qnat n + 1.
Proof.
  unfold Qnat. rewrite Nat2Z.inj_succ. unfold Z.succ.
  rewrite inject_Z_plus. reflexivity.
Qed.

Lemma fold_Qplus_bounds (l : list Q) :
  Forall (fun x => 0 <= x <= 1) l ->
  forall a, a <= fold_left Qplus l a <= a + Qnat (length l).
Proof.
  induction 1 as [|x l [X0 X1] _ IH]; intro a.
  - simpl. change (Qnat 0) with 0. lra.
  - cbn [fold_left length]. specialize (IH (a + x)).
    rewrite Qnat_S. lra.
Qed.

Lemma avg_table_quality_bounds (pages : list PageData) :
  all_tables pages <> [] -> 0 <= avg_table_quality pages <= 1.
Proof.
  intro NE. unfold avg_table_quality, py_sum.
  assert (F : Forall (fun x => 0 <= x <= 1)
                     (map assess_table_quality (all_tables pages))).
  { apply Forall_forall. intros x Hx. apply in_map_iff in Hx.
    destruct Hx as (t & <- & _). apply assess_table_quality_bounds. }
  pose proof (fold_Qplus_bounds _ F 0) as [L U].
  rewrite length_map in U.
  assert (P : 0 < Qnat (length (all_tables pages))).
  { apply Qnat_pos. destruct (all_tables pages); [congruence | simpl; lia]. }
  split.
  - apply Qdiv_nonneg; assumption.
  - apply Qdiv_le_1; [lra | assumption].
Qed.

Lemma assess_structure_quality_bounds (pages : list PageData) :
  0 <= assess_structure_quality pages <= 1.
Proof.
  unfold assess_structure_quality.
  destruct (fold_left structure_step pages (0, 0, 0)%nat) as [[h l] t].
  destruct (0 <? h)%nat, (0 <? l)%nat, (0 <? t)%nat; split;
    vm_compute; discriminate.
Qed.

Lemma assess_quality_with_tables (pages : list PageData) (rep : QualityReport) :
  all_tables pages <> [] ->
  fst (assess_quality pages rep) ==
  0.5 * avg_table_quality pages + 0.3 * assess_text_quality pages
  + 0.2 * assess_structure_quality pages.
Proof.
  intro NE. unfold assess_quality.
  pose proof (table_step_fold (tables_in_order pages) 0 0 rep) as F.
  destruct (fold_left table_step (tables_in_order pages) (0%nat, 0, rep))
    as [[n s] r].
  simpl in F. injection F as Hn Hs.
  rewrite tables_in_order_snd in Hs.
  assert (L : length (tables_in_order pages) = length (all_tables pages)).
  { rewrite <- tables_in_order_snd. rewrite length_map. reflexivity. }
  rewrite L in Hn.
  assert (P : (0 <? n)%nat = true).
  { apply Nat.ltb_lt. subst n. destruct (all_tables pages);
      [congruence | simpl; lia]. }
  rewrite P. cbn [fst app].
  replace (Qlt_bool 0 (py_sum [0.5; 0.3; 0.2])) with true by reflexivity.
  unfold avg_table_quality, py_sum at 2. rewrite <- Hs, <- Hn.
  assert (W : py_sum [0.5; 0.3; 0.2] == 1) by reflexivity.
  rewrite W. field.
  apply Nat.ltb_lt in P. pose proof (Qnat_pos n P). lra.
Qed.

Lemma assess_quality_without_tables (pages : list PageData) (rep : QualityReport) :
  all_tables pages = [] ->
  fst (assess_quality pages rep) ==
  (0.3 * assess_text_quality pages + 0.2 * assess_structure_quality pages) / 0.5.
Proof.
  intro E. unfold assess_quality.
  assert (T : tables_in_order pages = []).
  { apply (f_equal (@length _)) in E. rewrite <- tables_in_order_snd in E.
    rewrite length_map in E. destruct (tables_in_order pages);
      [reflexivity | discriminate]. }
  rewrite T. cbn [fold_left Nat.ltb Nat.leb fst app].
  replace (Qlt_bool 0 (py_sum [0.3; 0.2])) with true by reflexivity.
  assert (W : py_sum [0.3; 0.2] == 0.5) by reflexivity.
  rewrite W. field.
Qed.

(** C1. The overall score is
    [0.5 * avg_table_quality + 0.3 * text_quality + 0.2 * structure_quality]
    when the document has a table, and
    [(0.3 * text_quality + 0.2 * structure_quality) / 0.5
     = 0.6 * text_quality + 0.4 * structure_quality] when it has none; it
    always lies in [0, 1]. *)
Theorem overall_score_weights (pages : list PageData) (rep : QualityReport) :
  (all_tables pages <> [] ->
     fst (assess_quality pages rep) ==
     0.5 * avg_table_quality pages + 0.3 * assess_text_quality pages
     + 0.2 * assess_structure_quality pages)
  /\ (all_tables pages = [] ->
      fst (assess_quality pages rep) ==
      (0.3 * assess_text_quality pages
       + 0.2 * assess_structure_quality pages) / 0.5
      /\ fst (assess_quality pages rep) ==
         0.6 * assess_text_quality pages
         + 0.4 * assess_structure_quality pages)
  /\ 0 <= fst (assess_quality pages rep) <= 1.
Proof.
  pose proof (assess_text_quality_bounds pages) as [T0 T1].
  pose proof (assess_structure_quality_bounds pages) as [S0 S1].
  split; [|split].
  - apply assess_quality_with_tables.
  - intro E. pose proof (assess_quality_without_tables pages rep E) as H.
    split; [exact H|]. rewrite H. field.
  - destruct (all_tables pages) as [|t ts] eqn:A.
    + pose proof (assess_quality_without_tables pages rep A) as H.
      assert (H' : fst (assess_quality pages rep) ==
                   0.6 * assess_text_quality pages
                   + 0.4 * assess_structure_quality pages)
        by (rewrite H; field).
      rewrite H'. lra.
    + assert (NE : all_tables pages <> []) by (rewrite A; discriminate).
      pose proof (assess_quality_with_tables pages rep NE) as H.
      pose proof (avg_table_quality_bounds pages NE) as [A0 A1].
      rewrite H. lra.
Qed.

Lemma overall_score_weights_witness :
  fst (assess_quality uneven_pages initial_report) ==
  0.6 * assess_text_quality uneven_pages
  + 0.4 * assess_structure_quality uneven_pages.
Proof.
  apply (proj1 (proj2 (overall_score_weights uneven_pages initial_report))).
  reflexivity.
Defined.

(** ** Heading rules *)

Lemma is_heading_rules (text : pystr) (line : Line) (page : Page) :
  is_heading text line page = true <->
  (startswith text white_square = true \/ startswith text black_square = true)
  \/ (startswith text (py "- ") = true /\ endswith text (py " -") = true
      /\ (length text < 10)%nat)
  \/ ((length text < 50)%nat
      /\ Qabs (line_center line - page_center page) < 50).
Proof.
  unfold is_heading.
  destruct (startswith text white_square) eqn:W;
    [simpl; split; [intros _; left; left; reflexivity | reflexivity]|].
  destruct (startswith text black_square) eqn:B;
    [simpl; split; [intros _; left; right; reflexivity | reflexivity]|].
  cbn [orb].
  destruct (startswith text (py "- ") && endswith text (py " -")
            && (length text <? 10)%nat) eqn:R2.
  - split; [intros _|reflexivity]. right; left.
    apply andb_true_iff in R2 as [R2 L]. apply andb_true_iff in R2 as [S E].
    apply Nat.ltb_lt in L. auto.
  - destruct ((length text <? 50)%nat
              && Qlt_bool (Qabs (line_center line - page_center page)) 50) eqn:R3.
    + split; [intros _|reflexivity]. right; right.
      apply andb_true_iff in R3 as [L C]. apply Nat.ltb_lt in L.
      apply Qlt_bool_iff in C. auto.
    + split; [discriminate|]. intros [[H|H] | [(S & E & L) | (L & C)]];
        try discriminate.
      * apply Nat.ltb_lt in L. rewrite S, E, L in R2. discriminate.
      * apply Nat.ltb_lt in L. apply Qlt_bool_iff in C.
        rewrite L, C in R3. discriminate.
Qed.

(** C4. [is_heading] follows the three rules of the claim, but
    [get_heading_level] tests the hyphen pattern without the length bound
    of [is_heading]: the twelve-character line ["- abcdefgh -"], centred on
    a page 600 wide, is a heading by the centred-short-text rule only and is
    given level 3, not 2. *)
Theorem centred_dash_heading_level :
  startswith long_dash_text white_square = false
  /\ startswith long_dash_text black_square = false
  /\ (startswith long_dash_text (py "- ") && endswith long_dash_text (py " -")
      && (length long_dash_text <? 10)%nat) = false
  /\ is_heading long_dash_text centred_line empty_page = true
  /\ get_heading_level long_dash_text centred_line = 3%Z
  /\ detect_structure [centred_line] empty_page
     = [mkElement heading long_dash_text (mkBBox 250 100 (350 - 250) 12)
                  (Some 3%Z) None].
Proof.
  repeat split; reflexivity.
Qed.

(** ** Line grouper *)

Lemma insert_by_key_perm (c : Glyph) (l : list Glyph) :
  Permutation (insert_by_key c l) (c :: l).
Proof.
  induction l as [|d l IH]; simpl; [reflexivity|].
  destruct (key_lt (sort_key d) (sort_key c)).
  - rewrite IH. apply perm_swap.
  - reflexivity.
Qed.

Lemma sorted_chars_perm (chars : list Glyph) :
  Permutation (sorted_chars chars) chars.
Proof.
  induction chars as [|c l IH]; simpl; [reflexivity|].
  rewrite insert_by_key_perm. apply perm_skip, IH.
Qed.

Lemma key_lt_round (a b : Glyph) :
  key_lt (sort_key a) (sort_key b) = true -> round_le a b.
Proof.
  unfold key_lt, sort_key, round_le. simpl. intro H.
  apply orb_true_iff in H as [H | H].
  - apply Z.ltb_lt in H. lia.
  - apply andb_true_iff in H as [H _]. apply Z.eqb_eq in H. lia.
Qed.

Lemma key_not_lt_round (a b : Glyph) :
  key_lt (sort_key a) (sort_key b) = false -> round_le b a.
Proof.
  unfold key_lt, sort_key, round_le. simpl. intro H.
  apply orb_false_iff in H as [H _]. apply Z.ltb_ge in H. exact H.
Qed.

Lemma insert_by_key_sorted (c : Glyph) (l : list Glyph) :
  StronglySorted round_le l -> StronglySorted round_le (insert_by_key c l).
Proof.
  induction 1 as [|d l S IH F]; simpl.
  - constructor; constructor.
  - destruct (key_lt (sort_key d) (sort_key c)) eqn:K.
    + constructor; [exact IH|].
      apply Forall_forall. intros x Hx.
      apply (Permutation_in _ (insert_by_key_perm c l)) in Hx.
      destruct Hx as [<- | Hx].
      * apply key_lt_round, K.
      * rewrite Forall_forall in F. apply F, Hx.
    + pose proof (key_not_lt_round _ _ K) as R.
      constructor; [constructor; assumption|].
      constructor; [exact R|].
      apply Forall_forall. intros x Hx. rewrite Forall_forall in F.
      specialize (F x Hx). unfold round_le in *. lia.
Qed.

Lemma sorted_chars_sorted (chars : list Glyph) :
  StronglySorted round_le (sorted_chars chars).
Proof.
  induction chars as [|c l IH]; simpl.
  - constructor.
  - apply insert_by_key_sorted, IH.
Qed.

Lemma state_lines_step_chars (st : list Line * option Line) (c : Glyph) :
  concat (map l_chars (state_lines (group_step st c)))
  = concat (map l_chars (state_lines st)) ++ [c].
Proof.
  destruct st as [lines [cur|]]; unfold group_step, state_lines.
  - destruct (Qlt_bool y_tolerance (Qabs (g_top c - l_y cur))); cbn [fst snd].
    + rewrite !map_app, !concat_app. simpl. rewrite !app_nil_r. reflexivity.
    + rewrite !map_app, !concat_app. simpl. rewrite !app_nil_r.
      rewrite app_assoc. reflexivity.
  - cbn [fst snd]. rewrite map_app, concat_app. simpl. reflexivity.
Qed.

Lemma group_fold_chars (gs : list Glyph) (st : list Line * option Line) :
  concat (map l_chars (state_lines (fold_left group_step gs st)))
  = concat (map l_chars (state_lines st)) ++ gs.
Proof.
  revert st. induction gs as [|c gs IH]; intro st; simpl.
  - rewrite app_nil_r. reflexivity.
  - rewrite IH, state_lines_step_chars, <- app_assoc. reflexivity.
Qed.

Lemma new_line_anchored (c : Glyph) : line_anchored (new_line c).
Proof.
  split.
  - exists c, []. split; reflexivity.
  - cbn [new_line l_chars l_y]. constructor; [|constructor].
    apply Qabs_Qle_condition. lra.
Qed.

Lemma add_to_line_anchored (l : Line) (c : Glyph) :
  line_anchored l -> Qlt_bool y_tolerance (Qabs (g_top c - l_y l)) = false ->
  line_anchored (add_to_line l c).
Proof.
  intros [(c0 & rest & Hc & Hy) F] T. split.
  - exists c0, (rest ++ [c]). simpl. rewrite Hc. split; [reflexivity | exact Hy].
  - simpl. apply Forall_app. split; [exact F|].
    constructor; [|constructor]. apply Qlt_bool_false in T. exact T.
Qed.

Lemma group_step_anchored (st : list Line * option Line) (c : Glyph) :
  Forall line_anchored (state_lines st) ->
  Forall line_anchored (state_lines (group_step st c)).
Proof.
  destruct st as [lines [cur|]]; unfold group_step, state_lines; cbn [fst snd].
  - intro F. apply Forall_app in F as [F1 F2].
    destruct (Qlt_bool y_tolerance (Qabs (g_top c - l_y cur))) eqn:T;
      cbn [fst snd].
    + apply Forall_app. split; [apply Forall_app; split; assumption|].
      constructor; [apply new_line_anchored | constructor].
    + apply Forall_app. split; [assumption|].
      constructor; [|constructor].
      apply add_to_line_anchored; [|exact T]. inversion F2; assumption.
  - intro F. apply Forall_app. split; [assumption|].
    constructor; [apply new_line_anchored | constructor].
Qed.

Lemma group_fold_anchored (gs : list Glyph) (st : list Line * option Line) :
  Forall line_anchored (state_lines st) ->
  Forall line_anchored (state_lines (fold_left group_step gs st)).
Proof.
  revert st. induction gs as [|c gs IH]; intros st F; simpl; [exact F|].
  apply IH, group_step_anchored, F.
Qed.

Lemma group_text_by_lines_state (chars : list Glyph) :
  group_text_by_lines chars
  = state_lines (fold_left group_step (sorted_chars chars) ([], None)).
Proof.
  unfold group_text_by_lines. destruct chars as [|c l]; [reflexivity|].
  cbn [truthy negb]. unfold state_lines.
  destruct (fold_left group_step (sorted_chars (c :: l)) ([], None))
    as [lines [cur|]]; reflexivity.
Qed.

(** C5. The lines of the grouper partition the glyphs: their glyph lists,
    concatenated, are a rearrangement of the input; each line starts with
    the glyph whose top is its anchor; every glyph of a line is within 2 of
    the anchor; no glyphs give no lines. *)
Theorem group_text_by_lines_partition (chars : list Glyph) :
  Permutation (concat (map l_chars (group_text_by_lines chars))) chars
  /\ Forall (fun line =>
       exists c rest, l_chars line = c :: rest /\ l_y line = g_top c)
       (group_text_by_lines chars)
  /\ Forall (fun line =>
       Forall (fun g => Qabs (g_top g - l_y line) <= 2) (l_chars line))
       (group_text_by_lines chars)
  /\ group_text_by_lines [] = [].
Proof.
  rewrite group_text_by_lines_state.
  assert (A : Forall line_anchored
                (state_lines (fold_left group_step (sorted_chars chars)
                                        ([], None)))).
  { apply group_fold_anchored. constructor. }
  split; [|split; [|split]].
  - rewrite group_fold_chars. simpl. apply sorted_chars_perm.
  - eapply Forall_impl; [|exact A]. intros l [H _]. exact H.
  - eapply Forall_impl; [|exact A]. intros l [_ H]. exact H.
  - reflexivity.
Qed.

(** ** Anchors of the grouped lines *)

Lemma py_round_near (q : Q) :
  inject_Z (py_round q) - (1#2) <= q <= inject_Z (py_round q) + (1#2).
Proof.
  pose proof (Qfloor_le q) as L. pose proof (Qlt_floor q) as U.
  rewrite inject_Z_plus in U. change (inject_Z 1) with 1 in U.
  unfold py_round.
  destruct (Qlt_bool (q - inject_Z (Qfloor q)) (1#2)) eqn:A.
  - apply Qlt_bool_iff in A. lra.
  - apply Qlt_bool_false in A.
    destruct (Qlt_bool (1#2) (q - inject_Z (Qfloor q))) eqn:B.
    + rewrite inject_Z_plus. change (inject_Z 1) with 1. lra.
    + apply Qlt_bool_false in B. destruct (Z.even (Qfloor q)).
      * lra.
      * rewrite inject_Z_plus. change (inject_Z 1) with 1. lra.
Qed.

Lemma Qabs_gt_cases (x : Q) : 2 < Qabs x -> x < -2 \/ 2 < x.
Proof.
  intro H. destruct (Qlt_le_dec 2 x) as [G|G]; [right; exact G|].
  destruct (Qlt_le_dec x (-2)) as [G'|G']; [left; exact G'|].
  exfalso. assert (Qabs x <= 2) by (apply Qabs_Qle_condition; lra). lra.
Qed.

Lemma Qabs_gt_of_gap (x y : Q) : x + 2 < y -> 2 < Qabs (y - x).
Proof.
  intro H. apply Qlt_le_trans with (y - x); [lra | apply Qle_Qabs].
Qed.

Lemma gap_of_round (a c : Q) :
  (py_round a <= py_round c)%Z -> 2 < Qabs (c - a) -> gap a c.
Proof.
  intros R H. unfold gap. apply Qabs_gt_cases in H as [H|H]; [|lra].
  exfalso. pose proof (py_round_near a) as [_ Ua].
  pose proof (py_round_near c) as [Lc _].
  rewrite Zle_Qle in R. lra.
Qed.

Lemma gap_trans (a b c : Q) : gap a b -> gap b c -> gap a c.
Proof. unfold gap. intros. lra. Qed.

Lemma Sorted_gap_snoc (l : list Q) (a b : Q) :
  Sorted gap (l ++ [a]) -> gap a b -> Sorted gap ((l ++ [a]) ++ [b]).
Proof.
  intros S G. induction l as [|x l IH]; simpl in *.
  - constructor; [constructor; constructor | constructor; exact G].
  - inversion S as [|? ? S' H]; subst. constructor; [apply IH, S'|].
    destruct l; simpl in *; inversion H; subst; constructor; assumption.
Qed.

Lemma group_fold_gap (gs : list Glyph) :
  StronglySorted round_le gs ->
  forall lines cur,
    Forall (fun g => (py_round (l_y cur) <= py_round (g_top g))%Z) gs ->
    Sorted gap (anchors (lines ++ [cur])) ->
    Sorted gap (anchors (state_lines (fold_left group_step gs (lines, Some cur)))).
Proof.
  induction 1 as [|c gs S IH F]; intros lines cur R A.
  - exact A.
  - cbn [fold_left group_step].
    inversion R as [|? ? Rc Rgs]; subst.
    destruct (Qlt_bool y_tolerance (Qabs (g_top c - l_y cur))) eqn:T.
    + apply IH.
      * exact F.
      * unfold anchors. rewrite map_app. simpl.
        unfold anchors in A. rewrite map_app in A. simpl in A.
        rewrite map_app. apply Sorted_gap_snoc; [exact A|].
        apply Qlt_bool_iff in T. apply gap_of_round; assumption.
    + apply IH.
      * exact Rgs.
      * unfold anchors in *. rewrite map_app in *. exact A.
Qed.

Lemma group_text_by_lines_gap (chars : list Glyph) :
  StronglySorted gap (anchors (group_text_by_lines chars)).
Proof.
  apply Sorted_StronglySorted; [exact gap_trans|].
  rewrite group_text_by_lines_state.
  pose proof (sorted_chars_sorted chars) as S.
  destruct (sorted_chars chars) as [|c gs]; [constructor|].
  cbn [fold_left group_step].
  inversion S as [|? ? S' F]; subst.
  apply (group_fold_gap gs S' [] (new_line c)).
  - exact F.
  - repeat constructor.
Qed.

Lemma StronglySorted_split (R : Q -> Q -> Prop) (l1 l2 : list Q) (x : Q) :
  StronglySorted R (l1 ++ x :: l2) ->
  Forall (fun a => R a x) l1 /\ Forall (R x) l2.
Proof.
  induction l1 as [|a l1 IH]; simpl; intro S;
    inversion S as [|? ? S' F]; subst.
  - split; [constructor | exact F].
  - destruct (IH S') as [H1 H2]. split; [|exact H2].
    constructor; [|exact H1].
    rewrite Forall_forall in F. apply F, in_elt.
Qed.

Lemma similar_y_gap_l (a y : Q) (l : Line) :
  l_y l = a -> gap a y -> similar_y y l = false.
Proof.
  intros <- G. unfold similar_y. apply Qlt_bool_false.
  unfold gap in G.
  setoid_replace (l_y l - y) with (- (y - l_y l)) by ring.
  rewrite Qabs_opp. apply Qle_trans with (y - l_y l); [lra | apply Qle_Qabs].
Qed.

Lemma similar_y_gap_r (a y : Q) (l : Line) :
  l_y l = a -> gap y a -> similar_y y l = false.
Proof.
  intros <- G. unfold similar_y. apply Qlt_bool_false.
  unfold gap in G.
  apply Qle_trans with (l_y l - y); [lra | apply Qle_Qabs].
Qed.

Lemma filter_none {A : Type} (f : A -> bool) (l : list A) :
  Forall (fun x => f x = false) l -> filter f l = [].
Proof.
  induction 1 as [|x l H _ IH]; simpl; [reflexivity|]. rewrite H. exact IH.
Qed.

Lemma is_table_row_sorted (lines : list Line) (line : Line) :
  StronglySorted gap (anchors lines) -> In line lines ->
  is_table_row line lines = false.
Proof.
  intros S I. apply in_split in I as (l1 & l2 & ->).
  unfold anchors in S. rewrite map_app in S. simpl in S.
  apply StronglySorted_split in S as [S1 S2].
  unfold is_table_row. rewrite filter_app. simpl.
  rewrite (filter_none _ l1), (filter_none _ l2).
  - destruct (similar_y (l_y line) line); reflexivity.
  - rewrite Forall_map in S2. eapply Forall_impl; [|exact S2].
    intros l G. simpl in G. eapply similar_y_gap_r; [reflexivity | exact G].
  - rewrite Forall_map in S1. eapply Forall_impl; [|exact S1].
    intros l G. simpl in G. eapply similar_y_gap_l; [reflexivity | exact G].
Qed.

Lemma StronglySorted_nth (l : list Q) :
  StronglySorted gap l ->
  forall i j a b, (i < j)%nat ->
    nth_error l i = Some a -> nth_error l j = Some b -> gap a b.
Proof.
  induction 1 as [|x l S IH F]; intros i j a b L Hi Hj.
  - destruct i; discriminate.
  - destruct j as [|j]; [lia|]. simpl in Hj.
    destruct i as [|i]; simpl in Hi.
    + injection Hi as <-. rewrite Forall_forall in F.
      apply F. eapply nth_error_In, Hj.
    + apply (IH i j); [lia | assumption | assumption].
Qed.

Lemma classify_line_not_table_row (lines : list Line) (page : Page)
      (line : Line) (e : Element) :
  is_table_row line lines = false ->
  classify_line lines page line = Some e -> e_type e <> table_row.
Proof.
  intros T C. unfold classify_line in C.
  destruct (negb (truthy (strip (l_text line)))); [discriminate|].
  injection C as <-. rewrite T.
  destruct (is_heading _ line page); [discriminate|].
  destruct (is_list_item _); discriminate.
Qed.

Lemma detect_structure_fold (lines : list Line) (page : Page)
      (ls : list Line) (acc : list Element) :
  (forall line, In line ls -> is_table_row line lines = false) ->
  Forall (fun e => e_type e <> table_row) acc ->
  Forall (fun e => e_type e <> table_row)
    (fold_left (fun elements line =>
       match classify_line lines page line with
       | Some element => elements ++ [element]
       | None => elements
       end) ls acc).
Proof.
  revert acc. induction ls as [|line ls IH]; intros acc T A; simpl; [exact A|].
  apply IH.
  - intros l I. apply T. right. exact I.
  - destruct (classify_line lines page line) as [e|] eqn:C; [|exact A].
    apply Forall_app. split; [exact A|]. constructor; [|constructor].
    eapply classify_line_not_table_row; [|exact C]. apply T. left. reflexivity.
Qed.

(** C10. For the lines the grouper produces, the anchors of two different
    lines differ by more than 2 (they grow by more than 2 from each line to
    the next), so no line has another within less than 2 of its anchor:
    [is_table_row] is false on every line and the classifier emits no
    [table_row] element. *)
Theorem no_table_row_elements (page : Page) (chars : list Glyph) :
  (forall i j li lj,
      i <> j ->
      nth_error (group_text_by_lines chars) i = Some li ->
      nth_error (group_text_by_lines chars) j = Some lj ->
      2 < Qabs (l_y li - l_y lj))
  /\ (forall line, In line (group_text_by_lines chars) ->
        is_table_row line (group_text_by_lines chars) = false)
  /\ Forall (fun e => e_type e <> table_row)
       (detect_structure (group_text_by_lines chars) page)
  /\ Forall (fun e => e_type e <> table_row) (page_elements page).
Proof.
  assert (G : forall cs, StronglySorted gap (anchors (group_text_by_lines cs)))
    by apply group_text_by_lines_gap.
  assert (D : forall cs, Forall (fun e => e_type e <> table_row)
                (detect_structure (group_text_by_lines cs) page)).
  { intro cs. unfold detect_structure. apply detect_structure_fold.
    - intros line I. apply is_table_row_sorted; [apply G | exact I].
    - constructor. }
  split; [|split; [|split]].
  - intros i j li lj N Hi Hj.
    assert (Ai : nth_error (anchors (group_text_by_lines chars)) i
                 = Some (l_y li))
      by (unfold anchors; rewrite nth_error_map, Hi; reflexivity).
    assert (Aj : nth_error (anchors (group_text_by_lines chars)) j
                 = Some (l_y lj))
      by (unfold anchors; rewrite nth_error_map, Hj; reflexivity).
    destruct (Nat.lt_total i j) as [L | [E | L]]; [| contradiction |].
    + pose proof (StronglySorted_nth _ (G chars) i j _ _ L Ai Aj) as X.
      setoid_replace (l_y li - l_y lj) with (- (l_y lj - l_y li)) by ring.
      rewrite Qabs_opp. apply Qabs_gt_of_gap, X.
    + pose proof (StronglySorted_nth _ (G chars) j i _ _ L Aj Ai) as X.
      apply Qabs_gt_of_gap, X.
  - intros line I. apply is_table_row_sorted; [apply G | exact I].
  - apply D.
  - apply D.
Qed.

(** ** Union-with-dedup mode *)

Lemma coords_tables_loop_prefix (ts : list TableGeom) (tables : list TableData) :
  coords_tables_loop ts tables
  = fold_left accept_candidate (extracted_prefix ts) tables.
Proof.
  revert tables. induction ts as [|t ts IH]; intro tables; simpl.
  - reflexivity.
  - destruct (tg_extract t) as [g|]; [|reflexivity]. simpl. apply IH.
Qed.

Lemma coords_strategies_fold (page : Page) (ss : list TableSettings)
      (tables : list TableData) :
  fold_left (coords_strategy_step page) ss tables
  = fold_left accept_candidate
      (flat_map (fun strategy =>
         match pg_find_tables page strategy with
         | None => []
         | Some page_tables => extracted_prefix page_tables
         end) ss) tables.
Proof.
  revert tables. induction ss as [|s ss IH]; intro tables; simpl.
  - reflexivity.
  - rewrite fold_left_app, IH. f_equal. unfold coords_strategy_step.
    destruct (pg_find_tables page s) as [ts|]; [|reflexivity].
    apply coords_tables_loop_prefix.
Qed.

Lemma extract_tables_with_coords_flat (page : Page) :
  extract_tables_with_coords page = accept_all (extracted_candidates page).
Proof. apply coords_strategies_fold. Qed.

Lemma close_corner_near (a b : TableData) : close_corner a b = true <-> near a b.
Proof.
  unfold close_corner, near. rewrite andb_true_iff, !Qlt_bool_iff. reflexivity.
Qed.

Lemma is_duplicate_near (tables : list TableData) (t : TableData) :
  is_duplicate tables t = true <-> exists e, In e tables /\ near e t.
Proof.
  unfold is_duplicate. rewrite existsb_exists.
  split; intros (e & I & N); exists e; (split; [exact I|]);
    apply close_corner_near; exact N.
Qed.

Lemma accept_candidate_cases (tables : list TableData)
      (c : Grid * (Q * Q * Q * Q)) :
  (accept_candidate tables c = tables ++ [coords_table_data (fst c) (snd c)]
   /\ (0 < count_non_empty (fst c))%nat
   /\ is_duplicate tables (coords_table_data (fst c) (snd c)) = false)
  \/ (accept_candidate tables c = tables
      /\ (count_non_empty (fst c) = 0%nat
          \/ is_duplicate tables (coords_table_data (fst c) (snd c)) = true)).
Proof.
  destruct c as [g b]. unfold accept_candidate. cbn [fst snd].
  destruct g as [|row g].
  - right. split; [reflexivity | left; reflexivity].
  - cbn [truthy length Nat.ltb Nat.leb andb].
    destruct (count_non_empty (row :: g)) as [|n] eqn:N.
    + right. split; [reflexivity | left; reflexivity].
    + cbn [Nat.ltb Nat.leb].
      destruct (is_duplicate tables (coords_table_data (row :: g) b)) eqn:D.
      * right. split; [reflexivity | right; reflexivity].
      * left. split; [reflexivity | split; [lia | reflexivity]].
Qed.

Lemma accept_fold_app (cands : list (Grid * (Q * Q * Q * Q)))
      (tables : list TableData) :
  exists rest, fold_left accept_candidate cands tables = tables ++ rest.
Proof.
  revert tables. induction cands as [|c cands IH]; intro tables; simpl.
  - exists []. rewrite app_nil_r. reflexivity.
  - destruct (accept_candidate_cases tables c) as [(E & _) | (E & _)];
      rewrite E.
    + destruct (IH (tables ++ [coords_table_data (fst c) (snd c)])) as [r Hr].
      rewrite Hr, <- app_assoc. eexists. reflexivity.
    + apply IH.
Qed.

Lemma ForallOrdPairs_snoc {A : Type} (R : A -> A -> Prop) (l : list A) (x : A) :
  ForallOrdPairs R l -> Forall (fun a => R a x) l -> ForallOrdPairs R (l ++ [x]).
Proof.
  induction 1 as [|a l F P IH]; intro H; simpl.
  - constructor; constructor.
  - inversion H as [|? ? Ha Hl]; subst. constructor.
    + apply Forall_app. split; [exact F | constructor; [exact Ha | constructor]].
    + apply IH, Hl.
Qed.

Lemma accept_fold_apart (cands : list (Grid * (Q * Q * Q * Q)))
      (tables : list TableData) :
  ForallOrdPairs (fun a b => ~ near a b) tables ->
  ForallOrdPairs (fun a b => ~ near a b)
                 (fold_left accept_candidate cands tables).
Proof.
  revert tables. induction cands as [|c cands IH]; intros tables P; simpl.
  - exact P.
  - apply IH.
    destruct (accept_candidate_cases tables c) as [(E & _ & D) | (E & _)];
      rewrite E; [|exact P].
    apply ForallOrdPairs_snoc; [exact P|].
    apply Forall_forall. intros e I N.
    assert (is_duplicate tables (coords_table_data (fst c) (snd c)) = true)
      by (apply is_duplicate_near; exists e; split; assumption).
    congruence.
Qed.

Lemma accept_fold_origin (cands : list (Grid * (Q * Q * Q * Q)))
      (tables : list TableData) (t : TableData) :
  In t (fold_left accept_candidate cands tables) ->
  In t tables
  \/ exists c, In c cands /\ t = coords_table_data (fst c) (snd c)
               /\ (0 < count_non_empty (fst c))%nat.
Proof.
  revert tables. induction cands as [|c cands IH]; intros tables I; simpl in *.
  - left. exact I.
  - apply IH in I as [I | (c' & I & H)].
    + destruct (accept_candidate_cases tables c) as [(E & P & _) | (E & _)];
        rewrite E in I.
      * apply in_app_or in I as [I | [<- | []]]; [left; exact I|].
        right. exists c. split; [left; reflexivity | split; [reflexivity | exact P]].
      * left. exact I.
    + right. exists c'. split; [right; exact I | exact H].
Qed.

Lemma union_dedup_steps (page : Page) :
  (forall pre c post,
      extracted_candidates page = pre ++ c :: post ->
      let table_data := coords_table_data (fst c) (snd c) in
      (exists rest, extract_tables_with_coords page = accept_all pre ++ rest)
      /\ ((0 < count_non_empty (fst c))%nat ->
          (forall t, In t (accept_all pre) -> ~ near t table_data) ->
          accept_all (pre ++ [c]) = accept_all pre ++ [table_data]
          /\ In table_data (extract_tables_with_coords page))
      /\ ((exists t, In t (accept_all pre) /\ near t table_data) ->
          accept_all (pre ++ [c]) = accept_all pre)
      /\ (count_non_empty (fst c) = 0%nat ->
          accept_all (pre ++ [c]) = accept_all pre))
  /\ ForallOrdPairs (fun a b => ~ near a b) (extract_tables_with_coords page).
Proof.
  rewrite extract_tables_with_coords_flat. split.
  - intros pre c post E table_data. rewrite E.
    assert (S : accept_all (pre ++ [c]) = accept_candidate (accept_all pre) c).
    { unfold accept_all. rewrite fold_left_app. reflexivity. }
    pose proof (accept_candidate_cases (accept_all pre) c) as C.
    fold table_data in C.
    split; [|split; [|split]].
    + unfold accept_all. rewrite fold_left_app. apply accept_fold_app.
    + intros NE FAR. destruct C as [(C & _) | (_ & [Z | D])].
      * split; [rewrite S; exact C|].
        replace (pre ++ c :: post) with ((pre ++ [c]) ++ post)
          by (rewrite <- app_assoc; reflexivity).
        unfold accept_all at 1. rewrite fold_left_app.
        fold (accept_all (pre ++ [c])). rewrite S, C.
        destruct (accept_fold_app post (accept_all pre ++ [table_data]))
          as [r Hr].
        rewrite Hr. apply in_or_app. left. apply in_or_app. right.
        left. reflexivity.
      * lia.
      * apply is_duplicate_near in D as (e & I & N).
        exfalso. exact (FAR e I N).
    + intros (e & I & N). rewrite S.
      destruct C as [(_ & _ & D) | (C & _)]; [|exact C].
      assert (is_duplicate (accept_all pre) table_data = true)
        by (apply is_duplicate_near; exists e; split; assumption).
      congruence.
    + intro Z. rewrite S. destruct C as [(_ & P & _) | (C & _)]; [lia | exact C].
  - apply accept_fold_apart. constructor.
Qed.

(** C9, as stated, fails at the boundary: the duplicate test is strict, so
    two tables whose corners are exactly 10 units apart on one axis and
    equal on the other, hence within 10 units on both axes, are both
    accepted. *)
Lemma tables_ten_apart_both_accepted :
  ~ (forall page,
       ForallOrdPairs
         (fun a b =>
            ~ (Qabs (b_x (t_bbox a) - b_x (t_bbox b)) <= 10
               /\ Qabs (b_y (t_bbox a) - b_y (t_bbox b)) <= 10))
         (extract_tables_with_coords page)).
Proof.
  intro H. specialize (H ten_apart_page).
  assert (E : extract_tables_with_coords ten_apart_page
              = [coords_table_data dense_grid (0, 0, 100, 50);
                 coords_table_data dense_grid (10, 0, 110, 50)])
    by reflexivity.
  rewrite E in H. inversion H as [|a l F _]; subst.
  inversion F as [|b l' R _]; subst. apply R.
  split; vm_compute; discriminate.
Qed.

(** C9, amended. In union-with-dedup mode the candidates extracted for a
    page are taken in order.  A candidate with a non-empty cell is
    appended, as a table with its grid, [rows], [cols] and the box
    (x0, y0, x1 - x0, y1 - y0) of its bounding box, unless an already
    accepted table has its corner less than 10 units from (x0, y0) on both
    axes; in that case it is dropped and the accepted tables stay as they
    are.  A candidate without a non-empty cell is skipped, and accepted
    tables are never removed.  Every accepted table is such a candidate.
    Hence no two accepted tables have corners less than 10 units apart on
    both axes; a distance of exactly 10 on an axis keeps both. *)
Theorem union_dedup_accepts (page : Page) :
  (forall pre g x0 y0 x1 y1 post,
      extracted_candidates page = pre ++ (g, (x0, y0, x1, y1)) :: post ->
      let table_data :=
        mkTableData g (length g) (first_row_length g)
                    (mkBBox x0 y0 (x1 - x0) (y1 - y0)) in
      let accepted := accept_all pre in
      (exists rest, extract_tables_with_coords page = accepted ++ rest)
      /\ ((0 < count_non_empty g)%nat ->
          (forall t, In t accepted ->
             ~ (Qabs (b_x (t_bbox t) - x0) < 10
                /\ Qabs (b_y (t_bbox t) - y0) < 10)) ->
          accept_all (pre ++ [(g, (x0, y0, x1, y1))]) = accepted ++ [table_data]
          /\ In table_data (extract_tables_with_coords page))
      /\ ((exists t, In t accepted
                     /\ Qabs (b_x (t_bbox t) - x0) < 10
                     /\ Qabs (b_y (t_bbox t) - y0) < 10) ->
          accept_all (pre ++ [(g, (x0, y0, x1, y1))]) = accepted)
      /\ (count_non_empty g = 0%nat ->
          accept_all (pre ++ [(g, (x0, y0, x1, y1))]) = accepted))
  /\ (forall t, In t (extract_tables_with_coords page) ->
        exists g x0 y0 x1 y1,
          In (g, (x0, y0, x1, y1)) (extracted_candidates page)
          /\ (0 < count_non_empty g)%nat
          /\ t = mkTableData g (length g) (first_row_length g)
                             (mkBBox x0 y0 (x1 - x0) (y1 - y0)))
  /\ ForallOrdPairs
       (fun a b =>
          ~ (Qabs (b_x (t_bbox a) - b_x (t_bbox b)) < 10
             /\ Qabs (b_y (t_bbox a) - b_y (t_bbox b)) < 10))
       (extract_tables_with_coords page).
Proof.
  destruct (union_dedup_steps page) as [St Ap].
  split; [|split].
  - intros pre g x0 y0 x1 y1 post E table_data accepted.
    destruct (St pre (g, (x0, y0, x1, y1)) post E) as (P & A & D & Z).
    split; [exact P|]. split; [|split].
    + intros NE FAR. apply (A NE). intros t I [N1 N2].
      apply (FAR t I). split; [exact N1 | exact N2].
    + intros (t & I & N1 & N2). apply D. exists t.
      split; [exact I|]. split; [exact N1 | exact N2].
    + exact Z.
  - intros t I. rewrite extract_tables_with_coords_flat in I.
    apply accept_fold_origin in I as [[] | ([g [[[x0 y0] x1] y1]] & I & -> & P)].
    exists g, x0, y0, x1, y1. split; [exact I|]. split; [exact P|].
    reflexivity.
  - exact Ap.
Qed.

(** ** Best-of mode *)

Lemma best_strategies_fold (page : Page) (ss : list TableSettings)
      (best : list Candidate * float) :
  fold_left (best_strategy_step page) ss best
  = fold_left keep_best (map (strategy_result page) ss) best.
Proof.
  revert best. induction ss as [|s ss IH]; intro best; simpl.
  - reflexivity.
  - apply IH.
Qed.

Lemma keep_best_stays (outs : list (option (list Candidate * float)))
      (best : list Candidate * float) :
  (forall c t, In (Some (c, t)) outs -> PrimFloat.ltb (snd best) t = false) ->
  fold_left keep_best outs best = best.
Proof.
  revert best. induction outs as [|o outs IH]; intros best H; simpl.
  - reflexivity.
  - assert (E : keep_best best o = best).
    { destruct o as [[c t]|]; [|reflexivity]. simpl.
      rewrite (H c t (or_introl eq_refl)). reflexivity. }
    rewrite E. apply IH. intros c t I. apply (H c t). right. exact I.
Qed.

Lemma keep_best_winner (outs : list (option (list Candidate * float))) :
  forall best i cands total,
    nth_error outs i = Some (Some (cands, total)) ->
    PrimFloat.ltb (snd best) total = true ->
    (forall j c t, (j < i)%nat ->
       nth_error outs j = Some (Some (c, t)) -> PrimFloat.ltb t total = true) ->
    (forall j c t, (i < j)%nat ->
       nth_error outs j = Some (Some (c, t)) -> PrimFloat.ltb total t = false) ->
    fold_left keep_best outs best = (cands, total).
Proof.
  induction outs as [|o outs IH]; intros best i cands total N B E L.
  - destruct i; discriminate.
  - destruct i as [|i]; simpl in N.
    + injection N as ->. simpl. rewrite B.
      apply keep_best_stays. intros c t I.
      apply In_nth_error in I as [n Hn].
      apply (L (S n) c t); [lia | exact Hn].
    + simpl. apply (IH _ i); [exact N | | |].
      * destruct o as [[c t]|]; [|exact B]. simpl.
        destruct (PrimFloat.ltb (snd best) t); [|exact B].
        apply (E 0%nat c t); [lia | reflexivity].
      * intros j c t J Hj. apply (E (S j) c t); [lia | exact Hj].
      * intros j c t J Hj. apply (L (S j) c t); [lia | exact Hj].
Qed.

Lemma score_candidate_cells (st : list Candidate * float) (table : TableGeom)
      (g : Grid) :
  score_candidate st table g
  = if (0 <? total_cells g)%nat
    then (fst st ++ [mkCandidate table g (candidate_score g)],
          (snd st + candidate_score g)%float)
    else st.
Proof.
  destruct st as [ct cs]. unfold score_candidate.
  destruct g as [|row g]; [reflexivity|]. reflexivity.
Qed.

Lemma best_tables_loop_scored (ts : list TableGeom) :
  forall grids st,
    map tg_extract ts = map Some grids ->
    best_tables_loop ts st
    = Some (fst st ++ scored_tables (combine ts grids),
            fold_left PrimFloat.add
                      (map c_score (scored_tables (combine ts grids)))
                      (snd st)).
Proof.
  induction ts as [|t ts IH]; intros grids st M.
  - destruct st. simpl. rewrite app_nil_r. reflexivity.
  - destruct grids as [|g grids]; [discriminate|].
    simpl in M. injection M as X M. cbn [best_tables_loop]. rewrite X.
    rewrite (IH grids _ M), score_candidate_cells.
    unfold scored_tables. cbn [combine filter snd fst].
    destruct (0 <? total_cells g)%nat; cbn [fst snd map fold_left].
    + rewrite <- app_assoc. reflexivity.
    + reflexivity.
Qed.

Lemma best_tables_loop_raises (ts : list TableGeom) :
  forall st t, In t ts -> tg_extract t = None -> best_tables_loop ts st = None.
Proof.
  induction ts as [|a ts IH]; intros st t I X; [destruct I|].
  cbn [best_tables_loop]. destruct I as [-> | I].
  - rewrite X. reflexivity.
  - destruct (tg_extract a); [apply (IH _ t I X) | reflexivity].
Qed.


Lemma strategy_result_scored (page : Page) (s : TableSettings)
      (ts : list TableGeom) (grids : list Grid) :
  pg_find_tables page s = Some ts -> map tg_extract ts = map Some grids ->
  strategy_result page s
  = Some (scored_tables (combine ts grids),
          summed_score (scored_tables (combine ts grids))).
Proof.
  intros F M. unfold strategy_result. rewrite F.
  rewrite (best_tables_loop_scored ts grids _ M). reflexivity.
Qed.

Lemma emit_fold_data (cands : list Candidate) (acc : list SelectedTable) :
  map (fun t => (s_data t, s_position t)) (fold_left emit_table cands acc)
  = map (fun t => (s_data t, s_position t)) acc
    ++ map (fun c => (clean_table (c_data c), bbox_dict (tg_bbox (c_table c))))
           (filter (fun c => truthy (clean_table (c_data c))) cands).
Proof.
  revert acc. induction cands as [|c cands IH]; intro acc; simpl.
  - rewrite app_nil_r. reflexivity.
  - rewrite IH. unfold emit_table.
    destruct (truthy (clean_table (c_data c))).
    + rewrite map_app, <- app_assoc. reflexivity.
    + reflexivity.
Qed.

(** C3. In best-of mode the candidates of a strategy are the tables it
    found that have cells, in the order found, each scored
    [fill_ratio * total_cells] with [fill_ratio = non_empty_cells /
    total_cells] in the arithmetic of the code, and the summed score of the
    strategy is their sum; a strategy that raises contributes nothing.
    The tables of the page are those of the strategy whose summed score is
    positive, strictly greater than that of every earlier strategy and not
    exceeded by that of any later one (a later strategy with an equal
    score does not replace it); without a positive summed score the page
    has no table.  Of the kept candidates those whose cleaned grid is
    empty are left out, the others are returned in order with their
    cleaned grid and the position of their table. *)
Theorem best_of_selection (page : Page) :
  (forall i s,
      nth_error best_strategies i = Some s ->
      (forall ts grids,
          pg_find_tables page s = Some ts ->
          map tg_extract ts = map Some grids ->
          let found := filter (fun tg => (0 <? total_cells (snd tg))%nat)
                              (combine ts grids) in
          exists cands,
            nth_error (strategy_results page) i
            = Some (Some (cands,
                          fold_left PrimFloat.add (map c_score cands) 0%float))
            /\ map (fun c => (c_table c, c_data c)) cands = found
            /\ Forall (fun c =>
                 c_score c
                 = (py_float (count_non_empty (c_data c))
                    / py_float (total_cells (c_data c))
                    * py_float (total_cells (c_data c)))%float) cands)
      /\ (pg_find_tables page s = None
          \/ (exists ts t, pg_find_tables page s = Some ts
                           /\ In t ts /\ tg_extract t = None) ->
          nth_error (strategy_results page) i = Some None))
  /\ (forall i cands total,
      nth_error (strategy_results page) i = Some (Some (cands, total)) ->
      PrimFloat.ltb 0 total = true ->
      (forall j c t, (j < i)%nat ->
         nth_error (strategy_results page) j = Some (Some (c, t)) ->
         PrimFloat.ltb t total = true) ->
      (forall j c t, (i < j)%nat ->
         nth_error (strategy_results page) j = Some (Some (c, t)) ->
         PrimFloat.ltb total t = false) ->
      extract_tables page = emit_tables cands)
  /\ ((forall j c t,
         nth_error (strategy_results page) j = Some (Some (c, t)) ->
         PrimFloat.ltb 0 t = false) ->
      extract_tables page = [])
  /\ (forall cands,
      map (fun t => (s_data t, s_position t)) (emit_tables cands)
      = map (fun c => (clean_table (c_data c),
                       bbox_dict (tg_bbox (c_table c))))
            (filter (fun c => truthy (clean_table (c_data c))) cands)).
Proof.
  split; [|split; [|split]].
  - intros i s N. split.
    + intros ts grids F M found.
      exists (scored_tables (combine ts grids)).
      split; [|split].
      * unfold strategy_results. rewrite nth_error_map, N. simpl.
        rewrite (strategy_result_scored page s ts grids F M). reflexivity.
      * unfold scored_tables, found. rewrite map_map. cbn [c_table c_data].
        rewrite <- (map_id (filter _ (combine ts grids))) at 2.
        apply map_ext. intros [t g]. reflexivity.
      * unfold scored_tables. apply Forall_forall. intros c I.
        apply in_map_iff in I as (tg & <- & _). reflexivity.
    + intro H. unfold strategy_results. rewrite nth_error_map, N. simpl.
      unfold strategy_result.
      destruct H as [-> | (ts & t & -> & I & X)]; [reflexivity|].
      rewrite (best_tables_loop_raises ts _ t I X). reflexivity.
  - intros i cands total N P E L. unfold extract_tables.
    rewrite best_strategies_fold. fold (strategy_results page).
    rewrite (keep_best_winner _ ([], 0%float) i cands total N P E L).
    reflexivity.
  - intro Z. unfold extract_tables.
    rewrite best_strategies_fold. fold (strategy_results page).
    rewrite keep_best_stays; [reflexivity|].
    intros c t I. apply In_nth_error in I as [n Hn]. apply (Z n c t Hn).
  - intro cands. unfold emit_tables. rewrite emit_fold_data. reflexivity.
Qed.

(** ** Shape of the accepted grids *)

Lemma clean_table_rows (g : Grid) (r : list pystr) :
  In r (clean_table g) -> exists r0, In r0 g /\ r = map clean_cell r0.
Proof.
  unfold clean_table. destruct (negb (truthy g)); [intros []|].
  intro I. apply filter_In in I as [I _]. apply in_map_iff in I.
  destruct I as (r0 & <- & I). exists r0. split; [exact I | reflexivity].
Qed.

Lemma clean_table_rectangular (g : Grid) :
  rectangular g -> rectangular (clean_table g).
Proof.
  intros R r1 r2 I1 I2.
  apply clean_table_rows in I1 as (a & Ia & ->).
  apply clean_table_rows in I2 as (b & Ib & ->).
  rewrite !length_map. apply R; assumption.
Qed.

Lemma count_non_empty_filled (g : Grid) :
  (0 < count_non_empty g)%nat ->
  exists row cell, In row g /\ In cell row /\ cell_filled cell = true.
Proof.
  rewrite count_non_empty_concat. intro P.
  destruct (filter cell_filled (concat g)) as [|cell l] eqn:F;
    [simpl in P; lia|].
  assert (I : In cell (filter cell_filled (concat g)))
    by (rewrite F; left; reflexivity).
  apply filter_In in I as [I C]. apply in_concat in I as (row & Ir & Ic).
  exists row, cell. auto.
Qed.

Lemma clean_table_filled (g : Grid) :
  (0 < count_non_empty g)%nat -> clean_table g <> [].
Proof.
  intro P. apply count_non_empty_filled in P as (row & cell & Ir & Ic & C).
  unfold clean_table. destruct g as [|r0 g0] eqn:G; [destruct Ir|].
  cbn [truthy negb]. rewrite <- G in *. clear G.
  assert (I : In (map clean_cell row)
                 (filter (fun row => existsb truthy row)
                         (map (map clean_cell) g))).
  { apply filter_In. split; [apply in_map, Ir|].
    apply existsb_exists. exists (clean_cell cell).
    split; [apply in_map, Ic|].
    destruct cell as [s|]; [|discriminate]. simpl in *.
    apply andb_true_iff in C as [_ C]. exact C. }
  intro E. rewrite E in I. destruct I.
Qed.

Lemma keep_best_origin (outs : list (option (list Candidate * float)))
      (best : list Candidate * float) (c : Candidate) :
  In c (fst (fold_left keep_best outs best)) ->
  In c (fst best)
  \/ exists cands t, In (Some (cands, t)) outs /\ In c cands.
Proof.
  revert best. induction outs as [|o outs IH]; intros best I; simpl in *.
  - left. exact I.
  - apply IH in I as [I | (cands & t & Io & Ic)].
    + destruct o as [[cands t]|]; [|left; exact I]. simpl in I.
      destruct (PrimFloat.ltb (snd best) t); [|left; exact I].
      right. exists cands, t. split; [left; reflexivity | exact I].
    + right. exists cands, t. split; [right; exact Io | exact Ic].
Qed.

Lemma best_tables_loop_origin (ts : list TableGeom) :
  forall st cands total c,
    best_tables_loop ts st = Some (cands, total) -> In c cands ->
    In c (fst st) \/ exists t, In t ts /\ tg_extract t = Some (c_data c).
Proof.
  induction ts as [|t ts IH]; intros st cands total c R I; simpl in R.
  - destruct st. injection R as <- <-. left. exact I.
  - destruct (tg_extract t) as [g|] eqn:X; [|discriminate].
    destruct (IH _ _ _ c R I) as [H | (t' & It & Ht)].
    + destruct st as [ct cs]. unfold score_candidate in H.
      destruct (truthy g && (0 <? length g)%nat); [|left; exact H].
      destruct (0 <? total_cells g)%nat; [|left; exact H].
      cbn [fst] in H. apply in_app_or in H as [H | [<- | []]];
        [left; exact H|].
      right. exists t. split; [left; reflexivity | exact X].
    + right. exists t'. split; [right; exact It | exact Ht].
Qed.

Lemma emit_fold_origin (cands : list Candidate) (acc : list SelectedTable)
      (t : SelectedTable) :
  In t (fold_left emit_table cands acc) ->
  In t acc
  \/ exists c, In c cands /\ s_data t = clean_table (c_data c)
               /\ s_data t <> [].
Proof.
  revert acc. induction cands as [|c cands IH]; intros acc I; simpl in *.
  - left. exact I.
  - apply IH in I as [I | (c' & I & H)].
    + unfold emit_table in I.
      destruct (clean_table (c_data c)) as [|r g] eqn:C; [left; exact I|].
      cbn [truthy] in I. apply in_app_or in I as [I | [<- | []]];
        [left; exact I|].
      right. exists c. cbn [s_data]. rewrite C.
      split; [left; reflexivity | split; [reflexivity | discriminate]].
    + right. exists c'. split; [right; exact I | exact H].
Qed.

Lemma selected_candidate_extracted (page : Page) (c : Candidate) :
  In c (fst (fold_left (best_strategy_step page) best_strategies
                       ([], 0%float))) ->
  In (c_data c) (best_extracted page).
Proof.
  rewrite best_strategies_fold. intro I.
  apply keep_best_origin in I as [[] | (cands & total & Io & Ic)].
  apply in_map_iff in Io as (s & R & Is).
  unfold strategy_result in R.
  destruct (pg_find_tables page s) as [ts|] eqn:F; [|discriminate].
  destruct (best_tables_loop_origin ts _ _ _ c R Ic) as [[] | (t & It & X)].
  unfold best_extracted. apply in_flat_map. exists s. split; [exact Is|].
  rewrite F. apply in_flat_map. exists t. split; [exact It|].
  rewrite X. left. reflexivity.
Qed.

(** C6, as stated, fails: no rectangularity test is made, and a grid whose
    rows differ in length is accepted as it was extracted, in both modes. *)
Lemma ragged_grid_accepted :
  ~ (forall page t, In t (extract_tables_with_coords page) ->
                    rectangular (t_data t))
  /\ ~ (forall page t, In t (extract_tables page) -> rectangular (s_data t)).
Proof.
  split; intro H.
  - specialize (H ragged_page (coords_table_data ragged_grid (10, 20, 110, 70))).
    assert (I : In (coords_table_data ragged_grid (10, 20, 110, 70))
                   (extract_tables_with_coords ragged_page))
      by (left; reflexivity).
    specialize (H I [Some (py "a")] [Some (py "b"); Some (py "c")]).
    simpl in H. specialize (H (or_introl eq_refl) (or_intror (or_introl eq_refl))).
    discriminate H.
  - specialize (H ragged_page
                  (mkSelectedTable 0 [[py "a"]; [py "b"; py "c"]] 2 1
                                   (bbox_dict (10, 20, 110, 70)))).
    assert (I : In (mkSelectedTable 0 [[py "a"]; [py "b"; py "c"]] 2 1
                                    (bbox_dict (10, 20, 110, 70)))
                   (extract_tables ragged_page))
      by (left; reflexivity).
    specialize (H I [py "a"] [py "b"; py "c"]).
    simpl in H. specialize (H (or_introl eq_refl) (or_intror (or_introl eq_refl))).
    discriminate H.
Qed.

(** C6, amended. No accepted table has a grid with zero rows after
    cleaning: in union mode the grid is the extracted one and keeps a row
    when cleaned, in best-of mode the grid is the cleaned one and is not
    empty.  Row lengths are those of the extraction: a cleaned row has the
    length of the extracted row it comes from, so the accepted grid is
    rectangular whenever the extracted grid is. *)
Theorem accepted_grids_as_extracted (page : Page) :
  (forall t, In t (extract_tables_with_coords page) ->
     (exists c, In c (extracted_candidates page) /\ t_data t = fst c)
     /\ clean_table (t_data t) <> [])
  /\ (forall t, In t (extract_tables page) ->
      s_data t <> []
      /\ exists g, In g (best_extracted page) /\ s_data t = clean_table g
                   /\ (forall r, In r (s_data t) ->
                         exists r0, In r0 g /\ length r = length r0)
                   /\ (rectangular g -> rectangular (s_data t))).
Proof.
  split.
  - intros t I. rewrite extract_tables_with_coords_flat in I.
    apply accept_fold_origin in I as [[] | (c & I & -> & P)].
    cbn [coords_table_data t_data]. split.
    + exists c. split; [exact I | reflexivity].
    + apply clean_table_filled, P.
  - intros t I. unfold extract_tables, emit_tables in I.
    apply emit_fold_origin in I as [[] | (c & I & D & NE)].
    split; [exact NE|]. exists (c_data c).
    split; [apply selected_candidate_extracted, I|].
    split; [exact D|]. split.
    + intros r Ir. rewrite D in Ir.
      apply clean_table_rows in Ir as (r0 & I0 & ->).
      exists r0. split; [exact I0 | apply length_map].
    + intro R. rewrite D. apply clean_table_rectangular, R.
Qed.

(** ** Quality gate and exit codes *)

Lemma startswith_app (s r p : pystr) :
  startswith s p = true -> startswith (s ++ r) p = true.
Proof.
  revert s. induction p as [|a p IH]; intros s H.
  - destruct (s ++ r); reflexivity.
  - destruct s as [|b s]; [discriminate|]. simpl in *.
    apply andb_true_iff in H as [E H]. rewrite E. simpl. apply IH, H.
Qed.

Lemma contains_prefix (s p : pystr) :
  startswith s p = true -> contains s p = true.
Proof.
  intro H. destruct s; cbn [contains]; rewrite H; reflexivity.
Qed.

Lemma quality_msg_sniffed (q m : Q) :
  contains (lower (quality_msg q m)) (py "quality too low") = true.
Proof.
  apply contains_prefix. unfold quality_msg, lower. rewrite map_app.
  apply startswith_app. reflexivity.
Qed.

Lemma assess_quality_nonneg (pages : list PageData) (rep : QualityReport) :
  0 <= fst (assess_quality pages rep).
Proof.
  pose proof (assess_text_quality_bounds pages) as [T0 _].
  pose proof (assess_structure_quality_bounds pages) as [S0 _].
  destruct (all_tables pages) as [|t ts] eqn:A.
  - rewrite (assess_quality_without_tables pages rep A).
    apply Qdiv_nonneg; lra.
  - assert (NE : all_tables pages <> []) by (rewrite A; discriminate).
    rewrite (assess_quality_with_tables pages rep NE).
    pose proof (avg_table_quality_bounds pages NE) as [A0 _]. lra.
Qed.

(** The gate on the computed score and the exit codes of [main].  Below
    the minimum quality, strict mode marks the result failed with the
    message "Quality too low: ..." as its error (also appended to the
    errors of the report) and the exit code is 3; lenient mode appends the
    message to the warnings only, the result stays successful and the exit
    code is 2; at or above the minimum the result is successful and the
    exit code is 0.  An exception while parsing gives a failed result with
    the message of the exception, and [main] looks for "quality too low"
    in that message to choose between exit codes 3 and 1.  A missing file
    gives exit code 1. *)
Lemma quality_gate_exit_codes (args : Args) (doc : Document) :
  (a_file_exists args = false -> fst (main args doc) = 1%Z)
  /\ (a_file_exists args = true ->
      let min_quality := effective_min_quality args in
      let result := snd (main args doc) in
      let code := fst (main args doc) in
      (forall loads pages,
          doc = Opened loads -> process_pages loads 1 [] = (pages, None) ->
          let score := fst (assess_quality pages initial_report) in
          let report := snd (assess_quality pages initial_report) in
          let msg := quality_msg score min_quality in
          (score < min_quality -> effective_strict args = true ->
             r_success result = false /\ r_error result = Some msg
             /\ r_quality result = Some (score, add_error report msg)
             /\ code = 3%Z)
          /\ (score < min_quality -> effective_strict args = false ->
              r_success result = true /\ r_error result = None
              /\ r_quality result = Some (score, add_warning report msg)
              /\ code = 2%Z)
          /\ (min_quality <= score ->
              r_success result = true /\ r_error result = None
              /\ r_quality result = Some (score, report)
              /\ code = 0%Z))
      /\ (forall msg,
          (doc = OpenFault msg
           \/ exists loads pages,
                doc = Opened loads
                /\ process_pages loads 1 [] = (pages, Some msg)) ->
          r_success result = false /\ r_error result = Some msg
          /\ code = if contains (lower msg) (py "quality too low")
                    then 3%Z else 1%Z)).
Proof.
  split.
  - intro E. unfold main. rewrite E. reflexivity.
  - intro E. unfold main. rewrite E. cbn [negb fst snd]. split.
    + intros loads pages -> P. unfold extract. rewrite P.
      pose proof (assess_quality_nonneg pages initial_report) as NN.
      destruct (assess_quality pages initial_report) as [score report].
      cbn [fst snd] in *. split; [|split].
      * intros L S. apply Qlt_bool_iff in L. rewrite L, S.
        unfold exit_code_of. cbn [r_success r_error r_quality negb].
        rewrite quality_msg_sniffed. auto.
      * intros L S.
        assert (I : a_ignore_quality args = false).
        { destruct (a_ignore_quality args) eqn:I; [|reflexivity].
          unfold effective_min_quality in L. rewrite I in L. lra. }
        apply Qlt_bool_iff in L. rewrite L, S.
        unfold exit_code_of. cbn [r_success r_error r_quality negb].
        rewrite L, I. auto.
      * intro G. apply Qlt_bool_false in G. rewrite G.
        unfold exit_code_of. cbn [r_success r_error r_quality negb].
        rewrite G. auto.
    + intros msg [-> | (loads & pages & -> & P)].
      * unfold extract, exit_code_of. cbn [r_success r_error negb]. auto.
      * unfold extract. rewrite P. unfold exit_code_of.
        cbn [r_success r_error negb]. auto.
Qed.

Lemma quality_gate_on_blank_document :
  fst (main strict_args blank_document) = 3%Z
  /\ fst (main lenient_args blank_document) = 2%Z.
Proof.
  split.
  - destruct (quality_gate_exit_codes strict_args blank_document) as [_ H].
    destruct (H eq_refl) as [G _].
    destruct (G [PageOk empty_page]
                [extract_page_with_coords empty_page 1] eq_refl eq_refl)
      as (S & _).
    apply S; reflexivity.
  - destruct (quality_gate_exit_codes lenient_args blank_document) as [_ H].
    destruct (H eq_refl) as [G _].
    destruct (G [PageOk empty_page]
                [extract_page_with_coords empty_page 1] eq_refl eq_refl)
      as (_ & L & _).
    apply L; reflexivity.
Qed.

(** C7. A parse failure must exit with code 1, and exit code 3 is for a
    quality failure in strict mode.  [main] tells the two apart by the words
    "quality too low" in the error message: opening a directory of that
    name raises an exception whose message holds the path, the result is
    failed without any quality assessment, and the exit code is 3. *)
Theorem parse_failure_exits_with_3 :
  a_file_exists directory_args = true
  /\ r_success (snd (main directory_args directory_fault)) = false
  /\ r_error (snd (main directory_args directory_fault))
     = Some (py "[Errno 21] Is a directory: 'quality too low'")
  /\ r_quality (snd (main directory_args directory_fault)) = None
  /\ fst (main directory_args directory_fault) = 3%Z.
Proof.
  repeat split; reflexivity.
Qed.

(** ** The theorems on sample inputs *)

Lemma best_of_selection_witness :
  extract_tables sample_page = emit_tables dense_candidates.
Proof.
  destruct (best_of_selection sample_page) as (_ & W & _).
  apply (W 1%nat dense_candidates (0 + candidate_score dense_grid)%float).
  - reflexivity.
  - reflexivity.
  - intros j c t J N. destruct j as [|j]; [|lia].
    injection N as <- <-. reflexivity.
  - intros j c t J N. destruct j as [|[|[|j]]]; try lia.
    + injection N as <- <-. reflexivity.
    + destruct j; discriminate N.
Defined.

Lemma accepted_grids_as_extracted_witness :
  clean_table (t_data (coords_table_data ragged_grid (10, 20, 110, 70))) <> [].
Proof.
  destruct (accepted_grids_as_extracted ragged_page) as [W _].
  apply (W (coords_table_data ragged_grid (10, 20, 110, 70))).
  left. reflexivity.
Defined.

Lemma union_dedup_accepts_witness :
  accept_all ([(sparse_grid, (10, 20, 110, 70))]
              ++ [(dense_grid, (12, 22, 112, 72))])
  = accept_all [(sparse_grid, (10, 20, 110, 70))].
Proof.
  destruct (union_dedup_accepts sample_page) as [W _].
  destruct (W [(sparse_grid, (10, 20, 110, 70))] dense_grid 12 22 112 72 []
              eq_refl) as (_ & _ & D & _).
  apply D. exists (coords_table_data sparse_grid (10, 20, 110, 70)).
  split; [left; reflexivity|]. split; reflexivity.
Defined.

Lemma no_table_row_elements_witness :
  is_table_row (new_line (mkGlyph (py "I") 10 20 100 12))
               (group_text_by_lines (pg_chars sample_page)) = false.
Proof.
  destruct (no_table_row_elements sample_page (pg_chars sample_page))
    as (_ & W & _).
  apply W. left. reflexivity.
Defined.

(** * Further properties of the code *)

(** ** The assessors *)

(** X1. Each of the three assessors returns a value between 0 and 1, for
    any table and any list of pages. *)
Theorem assessors_in_unit_interval (t : TableData) (pages : list PageData) :
  (0 <= assess_table_quality t <= 1)
  /\ (0 <= assess_text_quality pages <= 1)
  /\ (0 <= assess_structure_quality pages <= 1).
Proof.
  split; [apply assess_table_quality_bounds|].
  split; [apply assess_text_quality_bounds|].
  apply assess_structure_quality_bounds.
Qed.

Lemma structure_elements_fold (l : list Element) (h li t : nat) :
  fold_left (fun (st : nat * nat * nat) e =>
      let '(h, l, t) := st in
      match e_type e with
      | heading => (S h, l, t)
      | list_item => (h, S l, t)
      | _ => (h, l, t)
      end) l (h, li, t)
  = ((h + length (filter is_heading_elem l))%nat,
     (li + length (filter is_list_elem l))%nat, t).
Proof.
  revert h li. induction l as [|e l IH]; intros h li; simpl.
  - f_equal; f_equal; lia.
  - unfold is_heading_elem at 1, is_list_elem at 1.
    destruct (e_type e); rewrite IH; simpl; f_equal; f_equal; lia.
Qed.

Lemma structure_pages_fold (pages : list PageData) (h li t : nat) :
  fold_left structure_step pages (h, li, t)
  = ((h + length (filter is_heading_elem (all_elements pages)))%nat,
     (li + length (filter is_list_elem (all_elements pages)))%nat,
     (t + length (all_tables pages))%nat).
Proof.
  revert h li t. induction pages as [|p ps IH]; intros h li t; simpl.
  - f_equal; [f_equal|]; lia.
  - unfold structure_step at 2. rewrite structure_elements_fold, IH.
    unfold all_elements, all_tables. simpl.
    rewrite !filter_app, !length_app. f_equal; [f_equal|]; lia.
Qed.

Lemma filter_length_existsb {A : Type} (f : A -> bool) (l : list A) :
  (0 <? length (filter f l))%nat = existsb f l.
Proof.
  induction l as [|x l IH]; simpl; [reflexivity|].
  destruct (f x); simpl; [reflexivity | exact IH].
Qed.

Lemma structure_quality_value (pages : list PageData) :
  assess_structure_quality pages ==
  (if existsb is_heading_elem (all_elements pages) then 0.4 else 0)
  + (if existsb is_list_elem (all_elements pages) then 0.3 else 0)
  + (if truthy (all_tables pages) then 0.3 else 0).
Proof.
  unfold assess_structure_quality. rewrite structure_pages_fold.
  cbn [Nat.add]. rewrite !filter_length_existsb.
  assert (T : (0 <? length (all_tables pages))%nat = truthy (all_tables pages))
    by (destruct (all_tables pages); reflexivity).
  rewrite T.
  destruct (existsb is_heading_elem (all_elements pages)),
           (existsb is_list_elem (all_elements pages)),
           (truthy (all_tables pages)); reflexivity.
Qed.

(** X2. Structure quality depends only on presence: 0.4 when the document
    has a heading element, plus 0.3 when it has a list item, plus 0.3 when
    a page has a table; the number of headings, list items or tables does
    not matter. *)
Theorem structure_quality_presence (pages : list PageData) :
  assess_structure_quality pages ==
  (if existsb is_heading_elem (all_elements pages) then 0.4 else 0)
  + (if existsb is_list_elem (all_elements pages) then 0.3 else 0)
  + (if truthy (all_tables pages) then 0.3 else 0).
Proof.
  exact (structure_quality_value pages).
Qed.

Lemma py_min_1_pos (x : Q) : 0 < x -> 0 < py_min 1 x.
Proof.
  intro H. unfold py_min. destruct (Qlt_bool x 1); lra.
Qed.

Lemma Qdiv_pos (a b : Q) : 0 < a -> 0 < b -> 0 < a / b.
Proof.
  intros Ha Hb. apply Qlt_shift_div_l; [exact Hb|]. lra.
Qed.

(** X3. Text quality is 0 exactly for a document without any character in
    its trimmed element contents (in particular for a document without
    pages or without elements); any character makes it positive. *)
Theorem text_quality_zero_iff_blank (pages : list PageData) :
  (doc_chars pages = 0%nat -> assess_text_quality pages == 0)
  /\ (doc_chars pages <> 0%nat -> 0 < assess_text_quality pages).
Proof.
  unfold assess_text_quality. rewrite text_counters_spec. split; intro H.
  - rewrite H. reflexivity.
  - apply Nat.eqb_neq in H. rewrite H.
    apply Nat.eqb_neq in H.
    destruct (length pages =? 0)%nat eqn:P.
    + apply Nat.eqb_eq in P. destruct pages; [|discriminate].
      exfalso. apply H. reflexivity.
    + apply Nat.eqb_neq in P.
      assert (C : 0 < py_min 1 (Qnat (doc_chars pages) / Qnat (length pages) / 100)).
      { apply py_min_1_pos. apply Qdiv_pos; [|lra].
        apply Qdiv_pos; apply Qnat_pos; lia. }
      assert (E : 0 <= py_min 1
                 (Qnat (length (filter meaningful (all_elements pages)))
                  / Qnat (length pages * 5))).
      { apply py_min_1_bounds.
        apply Qdiv_nonneg; [apply Qnat_nonneg | apply Qnat_pos; lia]. }
      lra.
Qed.

Lemma text_quality_zero_iff_blank_witness :
  0 < assess_text_quality uneven_pages.
Proof.
  apply (proj2 (text_quality_zero_iff_blank uneven_pages)).
  vm_compute. discriminate.
Defined.

Lemma table_step_report (l : list (nat * TableData)) (n : nat) (s : Q)
      (r : QualityReport) :
  let out := snd (fold_left table_step l (n, s, r)) in
  overall_score out = overall_score r
  /\ table_scores out = table_scores r ++ map table_score_entry l
  /\ warnings out
     = warnings r ++ map mostly_empty_warning (filter mostly_empty l)
  /\ errors out = errors r.
Proof.
  revert n s r. induction l as [|[pn t] l IH]; intros n s r.
  - simpl. rewrite !app_nil_r. auto.
  - cbn [fold_left table_step]. cbn zeta.
    destruct (IH (S n) (s + assess_table_quality t)
                 (if Qlt_bool (assess_table_quality t) 0.1
                  then add_warning
                         (add_table_score r
                            (mkTableScore pn (t_rows t) (t_cols t)
                                          (assess_table_quality t)))
                         (mostly_empty_msg pn (t_rows t) (t_cols t)
                                           (assess_table_quality t))
                  else add_table_score r
                         (mkTableScore pn (t_rows t) (t_cols t)
                                       (assess_table_quality t))))
      as (O & T & W & E).
    cbn zeta in O, T, W, E. rewrite O, T, W, E.
    cbn [filter map]. unfold mostly_empty at 2. cbn [snd].
    destruct (Qlt_bool (assess_table_quality t) 0.1);
      cbn [add_warning add_table_score overall_score table_scores warnings
           errors map];
      rewrite <- ?app_assoc; auto.
Qed.

(** X4. [assess_quality] only appends to the report it is given: the
    report it returns holds the returned score as [overall_score], one
    [table_scores] entry per table in page order, one warning for every
    table whose quality is under 0.1, and one error when the document has
    tables whose average quality is under 0.2; what the report held before
    is kept in front. *)
Theorem assess_quality_report (pages : list PageData) (rep : QualityReport) :
  let score := fst (assess_quality pages rep) in
  let out := snd (assess_quality pages rep) in
  overall_score out = score
  /\ table_scores out
     = table_scores rep ++ map table_score_entry (tables_in_order pages)
  /\ warnings out
     = warnings rep
       ++ map mostly_empty_warning (filter mostly_empty (tables_in_order pages))
  /\ errors out
     = errors rep
       ++ (if truthy (all_tables pages)
              && Qlt_bool (avg_table_quality pages) 0.2
           then [table_quality_msg (avg_table_quality pages)] else []).
Proof.
  cbn zeta. unfold assess_quality.
  pose proof (table_step_fold (tables_in_order pages) 0 0 rep) as F.
  pose proof (table_step_report (tables_in_order pages) 0 0 rep) as R.
  cbn zeta in R.
  destruct (fold_left table_step (tables_in_order pages) (0%nat, 0, rep))
    as [[n s] r].
  cbn [fst snd] in F, R. destruct R as (O & T & W & E).
  injection F as Hn Hs. rewrite tables_in_order_snd in Hs.
  assert (L : length (tables_in_order pages) = length (all_tables pages)).
  { rewrite <- tables_in_order_snd. rewrite length_map. reflexivity. }
  simpl in Hn. rewrite L in Hn.
  assert (A : s / Qnat n = avg_table_quality pages).
  { unfold avg_table_quality, py_sum. rewrite Hs, Hn. reflexivity. }
  assert (P : (0 <? n)%nat = truthy (all_tables pages)).
  { rewrite Hn. destruct (all_tables pages); reflexivity. }
  rewrite P. destruct (truthy (all_tables pages)); cbn [andb].
  - rewrite A. destruct (Qlt_bool (avg_table_quality pages) 0.2);
      cbn [fst snd set_overall_score add_error overall_score table_scores
           warnings errors];
      rewrite ?app_nil_r; rewrite ?E; auto.
  - cbn [fst snd set_overall_score overall_score table_scores warnings errors].
    rewrite app_nil_r. auto.
Qed.

(** ** Tables accepted in union mode *)

Lemma count_non_empty_nil : count_non_empty [] = 0%nat.
Proof. reflexivity. Qed.

Lemma accepted_table_shape (page : Page) (t : TableData) :
  In t (extract_tables_with_coords page) ->
  t_rows t = length (t_data t)
  /\ (0 < t_rows t)%nat
  /\ t_cols t = first_row_length (t_data t)
  /\ 0 < assess_table_quality t <= 1.
Proof.
  intro I. rewrite extract_tables_with_coords_flat in I.
  apply accept_fold_origin in I as [[] | (c & _ & -> & P)].
  destruct c as [g b]. cbn [fst snd coords_table_data t_rows t_cols t_data] in *.
  split; [reflexivity|].
  assert (G : (0 < length g)%nat).
  { destruct g; [rewrite count_non_empty_nil in P; lia | simpl; lia]. }
  split; [exact G|]. split; [reflexivity|].
  split; [|apply assess_table_quality_bounds].
  pose proof (count_non_empty_le_total g) as LE.
  assert (NZ : count_total (t_data (coords_table_data g b)) <> 0%nat)
    by (simpl; lia).
  rewrite (table_quality_nonzero _ NZ).
  pose proof (size_factor_bounds (coords_table_data g b)) as [S0 _].
  assert (F : 0 < fill_ratio g).
  { unfold fill_ratio. apply Qdiv_pos; apply Qnat_pos; lia. }
  cbn [t_data coords_table_data]. nra.
Qed.

(** X5. Every table accepted in union-with-dedup mode has [rows] equal to
    the number of rows of its grid (at least one), [cols] equal to the
    length of its first row, and a table quality that is positive (and at
    most 1): the zero score of [assess_table_quality] is never given to a
    table of a page result. *)
Theorem accepted_table_quality_positive (page : Page) (t : TableData) :
  In t (extract_tables_with_coords page) ->
  t_rows t = length (t_data t)
  /\ (0 < t_rows t)%nat
  /\ t_cols t = first_row_length (t_data t)
  /\ 0 < assess_table_quality t <= 1.
Proof.
  exact (accepted_table_shape page t).
Qed.

Lemma accepted_table_quality_positive_witness :
  0 < assess_table_quality (coords_table_data ragged_grid (10, 20, 110, 70)) <= 1.
Proof.
  apply (accepted_table_quality_positive ragged_page
           (coords_table_data ragged_grid (10, 20, 110, 70))).
  left. reflexivity.
Defined.

(** ** More on the line grouper *)

Lemma group_fold_invariant (P : Line -> Prop) :
  (forall c, P (new_line c)) ->
  (forall l c, P l -> P (add_to_line l c)) ->
  forall gs st,
    Forall P (state_lines st) ->
    Forall P (state_lines (fold_left group_step gs st)).
Proof.
  intros N A. induction gs as [|c gs IH]; intros st F; simpl; [exact F|].
  apply IH. destruct st as [lines [cur|]]; unfold group_step, state_lines in *;
    cbn [fst snd] in *.
  - apply Forall_app in F as [F1 F2].
    destruct (Qlt_bool y_tolerance (Qabs (g_top c - l_y cur))); cbn [fst snd].
    + apply Forall_app. split; [apply Forall_app; split; assumption|].
      constructor; [apply N | constructor].
    + apply Forall_app. split; [assumption|].
      constructor; [|constructor]. apply A. inversion F2; assumption.
  - apply Forall_app. split; [assumption|].
    constructor; [apply N | constructor].
Qed.

Lemma py_min_le_l (a b : Q) : py_min a b <= a.
Proof.
  unfold py_min. destruct (Qlt_bool b a) eqn:E; [|lra].
  apply Qlt_bool_iff in E. lra.
Qed.

Lemma py_min_le_r (a b : Q) : py_min a b <= b.
Proof.
  unfold py_min. destruct (Qlt_bool b a) eqn:E; [lra|].
  apply Qlt_bool_false in E. exact E.
Qed.

Lemma py_max_ge_l (a b : Q) : a <= py_max a b.
Proof.
  unfold py_max. destruct (Qlt_bool a b) eqn:E; [|lra].
  apply Qlt_bool_iff in E. lra.
Qed.

Lemma py_max_ge_r (a b : Q) : b <= py_max a b.
Proof.
  unfold py_max. destruct (Qlt_bool a b) eqn:E; [lra|].
  apply Qlt_bool_false in E. exact E.
Qed.

Lemma new_line_covers (c : Glyph) : line_covers (new_line c).
Proof.
  unfold line_covers, new_line. cbn [l_text l_chars l_x_min l_x_max l_height].
  split; [simpl; rewrite app_nil_r; reflexivity|].
  split; [intros g [<- | []]; split; lra|].
  split; [exists c; split; [left; reflexivity | reflexivity]|].
  split; [exists c; split; [left; reflexivity | reflexivity]|].
  exists c, []. split; reflexivity.
Qed.

Lemma add_to_line_covers (l : Line) (c : Glyph) :
  line_covers l -> line_covers (add_to_line l c).
Proof.
  intros (T & B & (gm & Im & Em) & (gx & Ix & Ex) & (c0 & rest & Hc & Hh)).
  unfold line_covers, add_to_line.
  cbn [l_text l_chars l_x_min l_x_max l_height].
  split; [|split; [|split; [|split]]].
  - rewrite map_app, concat_app, T. simpl. rewrite app_nil_r. reflexivity.
  - intros g I. apply in_app_or in I as [I | [<- | []]].
    + destruct (B g I) as [B1 B2].
      pose proof (py_min_le_l (l_x_min l) (g_x0 c)).
      pose proof (py_max_ge_l (l_x_max l) (g_x1 c)). split; lra.
    + split; [apply py_min_le_r | apply py_max_ge_r].
  - unfold py_min. destruct (Qlt_bool (g_x0 c) (l_x_min l)).
    + exists c. split; [apply in_or_app; right; left; reflexivity | reflexivity].
    + exists gm. split; [apply in_or_app; left; exact Im | exact Em].
  - unfold py_max. destruct (Qlt_bool (l_x_max l) (g_x1 c)).
    + exists c. split; [apply in_or_app; right; left; reflexivity | reflexivity].
    + exists gx. split; [apply in_or_app; left; exact Ix | exact Ex].
  - exists c0, (rest ++ [c]). rewrite Hc. split; [reflexivity | exact Hh].
Qed.

(** X6. Every line of the grouper describes its own glyphs: its text is the
    concatenation of their texts in the order they were added, [x_min] is
    the smallest [x0] and [x_max] the largest [x1] among them, and its
    height is the height of its first glyph. *)
Theorem grouped_line_covers_glyphs (chars : list Glyph) :
  Forall (fun l =>
    l_text l = concat (map g_text (l_chars l))
    /\ (forall g, In g (l_chars l) ->
          l_x_min l <= g_x0 g /\ g_x1 g <= l_x_max l)
    /\ (exists g, In g (l_chars l) /\ l_x_min l = g_x0 g)
    /\ (exists g, In g (l_chars l) /\ l_x_max l = g_x1 g)
    /\ (exists c rest, l_chars l = c :: rest /\ l_height l = g_height c))
    (group_text_by_lines chars).
Proof.
  rewrite group_text_by_lines_state.
  apply (group_fold_invariant line_covers new_line_covers add_to_line_covers).
  constructor.
Qed.

Lemma key_le_iff (a b : Glyph) :
  key_le a b <->
  (py_round (g_top a) < py_round (g_top b))%Z
  \/ (py_round (g_top a) = py_round (g_top b) /\ g_x0 a <= g_x0 b).
Proof.
  unfold key_le, key_lt, sort_key. cbn [fst snd].
  rewrite orb_false_iff, andb_false_iff, Z.ltb_ge, Z.eqb_neq, Qlt_bool_false.
  split.
  - intros [L [N | X]]; [left; lia|].
    destruct (Z.eq_dec (py_round (g_top a)) (py_round (g_top b))) as [E|E];
      [right; split; assumption | left; lia].
  - intros [L | [E X]]; [split; [lia | left; lia]|].
    split; [lia | right; exact X].
Qed.

Lemma key_le_trans (a b c : Glyph) : key_le a b -> key_le b c -> key_le a c.
Proof.
  rewrite !key_le_iff. intros [L1 | [E1 X1]] [L2 | [E2 X2]].
  - left. lia.
  - left. lia.
  - left. lia.
  - right. split; [lia | lra].
Qed.

Lemma key_lt_le (a b : Glyph) :
  key_lt (sort_key a) (sort_key b) = true -> key_le a b.
Proof.
  intro H. apply key_le_iff. unfold key_lt, sort_key in H. cbn [fst snd] in H.
  apply orb_true_iff in H as [H | H].
  - left. apply Z.ltb_lt, H.
  - apply andb_true_iff in H as [E X]. apply Z.eqb_eq in E.
    apply Qlt_bool_iff in X. right. split; [exact E | lra].
Qed.

Lemma insert_by_key_key_sorted (c : Glyph) (l : list Glyph) :
  StronglySorted key_le l -> StronglySorted key_le (insert_by_key c l).
Proof.
  induction 1 as [|d l S IH F]; simpl.
  - constructor; constructor.
  - destruct (key_lt (sort_key d) (sort_key c)) eqn:K.
    + constructor; [exact IH|].
      apply Forall_forall. intros x Hx.
      apply (Permutation_in _ (insert_by_key_perm c l)) in Hx.
      destruct Hx as [<- | Hx].
      * apply key_lt_le, K.
      * rewrite Forall_forall in F. apply F, Hx.
    + constructor; [constructor; assumption|].
      constructor; [exact K|].
      apply Forall_forall. intros x Hx. rewrite Forall_forall in F.
      apply (key_le_trans c d x); [exact K | apply F, Hx].
Qed.

Lemma sorted_chars_key_sorted (chars : list Glyph) :
  StronglySorted key_le (sorted_chars chars).
Proof.
  induction chars as [|c l IH]; simpl.
  - constructor.
  - apply insert_by_key_key_sorted, IH.
Qed.

Lemma lines_le_glyphs (lines : list Line) :
  Forall (fun l => exists c rest, l_chars l = c :: rest) lines ->
  (length lines <= length (concat (map l_chars lines)))%nat.
Proof.
  induction 1 as [|l ls (c & rest & H) _ IH]; simpl; [lia|].
  rewrite length_app, H. simpl. lia.
Qed.

Lemma StronglySorted_weaken {A : Type} (R R' : A -> A -> Prop) (l : list A) :
  (forall a b, R a b -> R' a b) -> StronglySorted R l -> StronglySorted R' l.
Proof.
  intros W. induction 1 as [|a l S IH F]; constructor; [exact IH|].
  eapply Forall_impl; [|exact F]. intros b H. apply W, H.
Qed.

(** X7. The grouper emits the glyphs in reading order: the glyphs of its
    lines, taken line after line, are in non-decreasing order of the key
    (rounded top, x0); the anchors grow by more than the tolerance from one
    line to the next; there are never more lines than glyphs, and a
    non-empty input gives at least one line. *)
Theorem grouped_lines_reading_order (chars : list Glyph) :
  StronglySorted
    (fun a b =>
       (py_round (g_top a) < py_round (g_top b))%Z
       \/ (py_round (g_top a) = py_round (g_top b) /\ g_x0 a <= g_x0 b))
    (concat (map l_chars (group_text_by_lines chars)))
  /\ StronglySorted (fun y1 y2 => y1 + 2 < y2)
                    (map l_y (group_text_by_lines chars))
  /\ (length (group_text_by_lines chars) <= length chars)%nat
  /\ (chars <> [] -> group_text_by_lines chars <> []).
Proof.
  assert (C : concat (map l_chars (group_text_by_lines chars))
              = sorted_chars chars).
  { rewrite group_text_by_lines_state, group_fold_chars. reflexivity. }
  assert (L : (length (group_text_by_lines chars) <= length chars)%nat).
  { rewrite <- (Permutation_length (sorted_chars_perm chars)), <- C.
    apply lines_le_glyphs.
    assert (A : Forall line_anchored (group_text_by_lines chars)).
    { rewrite group_text_by_lines_state. apply group_fold_anchored.
      constructor. }
    eapply Forall_impl; [|exact A].
    intros l [(c & rest & H & _) _]. exists c, rest. exact H. }
  split; [|split; [|split]].
  - rewrite C.
    apply (StronglySorted_weaken key_le); [|apply sorted_chars_key_sorted].
    intros a b H. apply key_le_iff, H.
  - exact (group_text_by_lines_gap chars).
  - exact L.
  - intros NE E. rewrite E in C. simpl in C.
    pose proof (Permutation_length (sorted_chars_perm chars)) as P.
    rewrite <- C in P. destruct chars; [congruence | discriminate].
Qed.

(** ** Trimming *)

Lemma lstrip_head (s : pystr) (c : char) (t : pystr) :
  lstrip s = c :: t -> isspace c = false.
Proof.
  induction s as [|a s IH]; simpl; [discriminate|].
  destruct (isspace a) eqn:E; [exact IH|].
  intro H. injection H as <- _. exact E.
Qed.

Lemma lstrip_app_nonspace (l : pystr) (c : char) :
  isspace c = false -> lstrip (l ++ [c]) = lstrip l ++ [c].
Proof.
  intro H. induction l as [|a l IH]; simpl.
  - rewrite H. reflexivity.
  - destruct (isspace a); [exact IH | reflexivity].
Qed.

Lemma rstrip_cons_nonspace (c : char) (t : pystr) :
  isspace c = false -> rstrip (c :: t) = c :: rstrip t.
Proof.
  intro H. unfold rstrip. simpl rev.
  rewrite (lstrip_app_nonspace _ _ H), rev_app_distr. reflexivity.
Qed.

Lemma rstrip_idem (t : pystr) : rstrip (rstrip t) = rstrip t.
Proof.
  unfold rstrip. rewrite rev_involutive. f_equal.
  induction (rev t) as [|a s IH]; simpl; [reflexivity|].
  destruct (isspace a) eqn:E; [exact IH|]. simpl. rewrite E. reflexivity.
Qed.

Lemma strip_idem (s : pystr) : strip (strip s) = strip s.
Proof.
  unfold strip. destruct (lstrip s) as [|c t] eqn:L; [reflexivity|].
  pose proof (lstrip_head s c t L) as H.
  rewrite (rstrip_cons_nonspace c t H). simpl lstrip. rewrite H.
  rewrite (rstrip_cons_nonspace c _ H), rstrip_idem. reflexivity.
Qed.

(** ** More on the structure classifier *)

Lemma detect_structure_flat (lines : list Line) (page : Page)
      (ls : list Line) (acc : list Element) :
  fold_left (fun elements line =>
     match classify_line lines page line with
     | Some element => elements ++ [element]
     | None => elements
     end) ls acc
  = acc ++ flat_map (fun line =>
             match classify_line lines page line with
             | Some element => [element]
             | None => []
             end) ls.
Proof.
  revert acc. induction ls as [|l ls IH]; intro acc; simpl.
  - rewrite app_nil_r. reflexivity.
  - rewrite IH. destruct (classify_line lines page l);
      [rewrite <- app_assoc|]; reflexivity.
Qed.

Lemma classify_line_content (lines : list Line) (page : Page) (line : Line) :
  match classify_line lines page line with
  | Some e => line_has_text line = true
              /\ e_content e = strip (l_text line)
              /\ e_bbox e = line_bbox line
  | None => line_has_text line = false
  end.
Proof.
  unfold classify_line, line_has_text.
  destruct (truthy (strip (l_text line))); cbn [negb]; [|reflexivity].
  destruct (is_heading _ line page); [auto|].
  destruct (is_list_item _); [auto|].
  destruct (is_table_row line lines); auto.
Qed.

Lemma classify_lines_contents (lines : list Line) (page : Page)
      (ls : list Line) :
  map (fun e => (e_content e, e_bbox e))
      (flat_map (fun line =>
         match classify_line lines page line with
         | Some element => [element]
         | None => []
         end) ls)
  = map (fun line => (strip (l_text line), line_bbox line))
        (filter line_has_text ls).
Proof.
  induction ls as [|l ls IH]; [reflexivity|].
  cbn [flat_map filter]. rewrite map_app, IH.
  pose proof (classify_line_content lines page l) as C.
  destruct (classify_line lines page l) as [e|].
  - destruct C as (T & Ec & Eb). rewrite T. simpl. rewrite Ec, Eb. reflexivity.
  - rewrite C. reflexivity.
Qed.

(** X8. The classifier gives one element for every line whose trimmed text
    is not empty and none for the others, in the order of the lines; the
    element holds the trimmed text of its line and the box [x_min], [y],
    [x_max - x_min], [height] of its line. *)
Theorem detect_structure_contents (lines : list Line) (page : Page) :
  map (fun e => (e_content e, e_bbox e)) (detect_structure lines page)
  = map (fun line => (strip (l_text line), line_bbox line))
        (filter line_has_text lines).
Proof.
  unfold detect_structure. rewrite detect_structure_flat. simpl.
  apply classify_lines_contents.
Qed.

Lemma startswith_app_l (s p q : pystr) :
  startswith s (p ++ q) = true -> startswith s p = true.
Proof.
  revert s. induction p as [|a p IH]; intros s H.
  - destruct s; reflexivity.
  - destruct s as [|b s]; [discriminate|]. simpl in *.
    apply andb_true_iff in H as [E H]. rewrite E. simpl. exact (IH s H).
Qed.

Lemma list_marker_first_char (text : pystr) :
  is_list_item text = true ->
  exists c rest, text = c :: rest /\ get_list_marker text = [c]
                 /\ In [c] markers.
Proof.
  intro H. unfold is_list_item in H. apply existsb_exists in H.
  destruct H as (m & Im & Hm).
  assert (S : startswith text m = true).
  { apply orb_true_iff in Hm as [Hm | Hm].
    - exact (startswith_app_l _ _ _ Hm).
    - unfold pystr_eqb in Hm. apply andb_true_iff in Hm as [_ Hm]. exact Hm. }
  unfold get_list_marker.
  destruct (find (fun marker => startswith text marker) markers) as [m'|] eqn:F.
  - apply find_some in F as [I' S'].
    assert (exists c, m' = [c]) as [c ->].
    { simpl in I'. repeat (destruct I' as [<- | I']; [eexists; reflexivity|]).
      destruct I'. }
    destruct text as [|a rest]; [discriminate|].
    simpl in S'. apply andb_true_iff in S' as [E _]. apply N.eqb_eq in E.
    subst a. exists c, rest. auto.
  - exfalso. pose proof (find_none _ _ F m Im) as N. simpl in N. congruence.
Qed.

Lemma classify_line_payload (lines : list Line) (page : Page) (line : Line)
      (e : Element) :
  classify_line lines page line = Some e ->
  payload_ok e /\ e_content e <> [] /\ strip (e_content e) = e_content e.
Proof.
  unfold classify_line.
  destruct (strip (l_text line)) as [|a t] eqn:S; cbn [truthy negb];
    [discriminate|].
  intro H. injection H as <-. rewrite <- S.
  assert (Common : forall ty lv mk,
            e_content (mkElement ty (strip (l_text line)) (line_bbox line) lv mk)
            <> []
            /\ strip (e_content (mkElement ty (strip (l_text line))
                                           (line_bbox line) lv mk))
               = e_content (mkElement ty (strip (l_text line))
                                      (line_bbox line) lv mk)).
  { intros. cbn [e_content]. split; [rewrite S; discriminate | apply strip_idem]. }
  fold (line_bbox line).
  destruct (is_heading (strip (l_text line)) line page).
  - split; [|apply Common]. unfold payload_ok. cbn [e_type e_level e_marker].
    split; [|reflexivity]. unfold get_heading_level.
    destruct (startswith _ white_square || startswith _ black_square); [auto|].
    destruct (startswith _ (py "- ") && endswith _ (py " -")); auto.
  - destruct (is_list_item (strip (l_text line))) eqn:L.
    + split; [|apply Common]. unfold payload_ok.
      cbn [e_type e_level e_marker e_content]. split; [reflexivity|].
      destruct (list_marker_first_char _ L) as (c & rest & T & M & I).
      exists c, rest. rewrite M. auto.
    + destruct (is_table_row line lines); (split; [|apply Common]);
        unfold payload_ok; cbn [e_type e_level e_marker]; auto.
Qed.

(** X9. What an element of the classifier carries follows from its type: a
    heading has a level 1, 2 or 3 and no marker; a list item has no level
    and its marker is the first character of its content, one of the eight
    list markers; a text or table-row element has neither.  The content is
    never empty and is already trimmed. *)
Theorem detect_structure_payload (lines : list Line) (page : Page) :
  Forall (fun e =>
    match e_type e with
    | heading =>
        (e_level e = Some 1%Z \/ e_level e = Some 2%Z \/ e_level e = Some 3%Z)
        /\ e_marker e = None
    | list_item =>
        e_level e = None
        /\ exists c rest, e_content e = c :: rest /\ e_marker e = Some [c]
                          /\ In [c] markers
    | _ => e_level e = None /\ e_marker e = None
    end
    /\ e_content e <> []
    /\ strip (e_content e) = e_content e)
    (detect_structure lines page).
Proof.
  unfold detect_structure. rewrite detect_structure_flat. simpl.
  apply Forall_forall. intros e I. apply in_flat_map in I as (l & _ & I).
  destruct (classify_line lines page l) as [e'|] eqn:C; [|destruct I].
  destruct I as [<- | []].
  exact (classify_line_payload lines page l e' C).
Qed.

(** ** More on the extraction and the quality gate *)

Lemma process_pages_spec (loads : list PageLoad) (k : nat)
      (acc : list PageData) :
  process_pages loads k acc
  = (acc ++ map (fun ip => extract_page_with_coords (snd ip) (fst ip))
                (numbered k (loaded_prefix loads)),
     first_fault loads).
Proof.
  revert k acc. induction loads as [|[msg|page] loads IH]; intros k acc.
  - simpl. rewrite app_nil_r. reflexivity.
  - simpl. rewrite app_nil_r. reflexivity.
  - cbn [process_pages loaded_prefix first_fault]. rewrite IH.
    unfold numbered. cbn [length seq combine map fst snd].
    rewrite <- app_assoc. reflexivity.
Qed.

Lemma extract_pages (loads : list PageLoad) (mq : Q) (strict : bool) :
  r_pages (extract (Opened loads) mq strict)
  = fst (process_pages loads 1 []).
Proof.
  unfold extract. destruct (process_pages loads 1 []) as [pages [msg|]].
  - reflexivity.
  - destruct (assess_quality pages initial_report) as [score report].
    destruct (Qlt_bool score mq); [destruct strict|]; reflexivity.
Qed.

Lemma numbered_numbers (k : nat) (pages : list Page) :
  map fst (numbered k pages) = seq k (length pages).
Proof.
  unfold numbered. revert k. induction pages as [|p ps IH]; intro k.
  - reflexivity.
  - simpl. rewrite IH. reflexivity.
Qed.

(** X10. The pages of a result are the pages read before the first
    exception, each extracted with its number, and the numbers count from
    1 without a gap; a page that raises ends the loop, the pages before it
    stay in the result and its message becomes the error. *)
Theorem extract_pages_numbered (loads : list PageLoad) (mq : Q) (strict : bool) :
  let r := extract (Opened loads) mq strict in
  r_pages r = map (fun ip => extract_page_with_coords (snd ip) (fst ip))
                  (numbered 1 (loaded_prefix loads))
  /\ map p_number (r_pages r) = seq 1 (length (loaded_prefix loads))
  /\ (forall msg, first_fault loads = Some msg ->
        r_success r = false /\ r_error r = Some msg /\ r_quality r = None).
Proof.
  cbn zeta. rewrite extract_pages, process_pages_spec. cbn [fst app].
  split; [reflexivity|]. split.
  - rewrite map_map. cbn [extract_page_with_coords p_number].
    apply numbered_numbers.
  - intros msg F. unfold extract. rewrite process_pages_spec, F. auto.
Qed.

Lemma extract_pages_numbered_witness :
  r_error (extract broken_document 0.2 false) = Some (py "No /Root object")
  /\ length (r_pages (extract broken_document 0.2 false)) = 2%nat.
Proof.
  destruct (extract_pages_numbered
              [PageOk sample_page; PageOk empty_page;
               PageFault (py "No /Root object"); PageOk ragged_page]
              0.2 false) as (P & _ & F).
  split.
  - apply (F (py "No /Root object")). reflexivity.
  - unfold broken_document. rewrite P. reflexivity.
Defined.

Lemma assess_quality_overall (pages : list PageData) (rep : QualityReport) :
  overall_score (snd (assess_quality pages rep)) = fst (assess_quality pages rep).
Proof.
  unfold assess_quality.
  destruct (fold_left table_step (tables_in_order pages) (0%nat, 0, rep))
    as [[n s] r].
  destruct (0 <? n)%nat; reflexivity.
Qed.

Lemma assess_quality_le_1 (pages : list PageData) (rep : QualityReport) :
  fst (assess_quality pages rep) <= 1.
Proof.
  pose proof (assess_text_quality_bounds pages) as [_ T1].
  pose proof (assess_structure_quality_bounds pages) as [_ S1].
  destruct (all_tables pages) as [|t ts] eqn:A.
  - rewrite (assess_quality_without_tables pages rep A).
    apply Qle_shift_div_r; lra.
  - assert (NE : all_tables pages <> []) by (rewrite A; discriminate).
    rewrite (assess_quality_with_tables pages rep NE).
    pose proof (avg_table_quality_bounds pages NE) as [_ A1]. lra.
Qed.

Lemma extract_result_shape (doc : Document) (mq : Q) (strict : bool) :
  let r := extract doc mq strict in
  (r_success r = true <-> r_error r = None)
  /\ (r_success r = true -> r_quality r <> None)
  /\ (forall score rep,
        r_quality r = Some (score, rep) ->
        overall_score rep = score /\ 0 <= score <= 1
        /\ (r_success r = false ->
              strict = true /\ score < mq
              /\ r_error r = Some (quality_msg score mq)
              /\ In (quality_msg score mq) (errors rep))).
Proof.
  cbn zeta. unfold extract. destruct doc as [msg|loads].
  - cbn [r_success r_error r_quality].
    split; [split; discriminate|]. split; [discriminate|]. discriminate.
  - destruct (process_pages loads 1 []) as [pages [msg|]].
    + cbn [r_success r_error r_quality].
      split; [split; discriminate|]. split; [discriminate|]. discriminate.
    + pose proof (assess_quality_overall pages initial_report) as O.
      pose proof (assess_quality_nonneg pages initial_report) as N.
      pose proof (assess_quality_le_1 pages initial_report) as U.
      destruct (assess_quality pages initial_report) as [score report].
      cbn [fst snd] in O, N, U.
      destruct (Qlt_bool score mq) eqn:L; [destruct strict|];
        cbn [r_success r_error r_quality].
      * split; [split; discriminate|]. split; [discriminate|].
        intros s rep E. injection E as <- <-.
        split; [exact O|]. split; [split; assumption|]. intros _.
        apply Qlt_bool_iff in L. split; [reflexivity|].
        split; [exact L|]. split; [reflexivity|].
        cbn [add_error errors]. apply in_or_app. right. left. reflexivity.
      * split; [split; reflexivity|]. split; [discriminate|].
        intros s rep E. injection E as <- <-.
        split; [exact O|]. split; [split; assumption|]. discriminate.
      * split; [split; reflexivity|]. split; [discriminate|].
        intros s rep E. injection E as <- <-.
        split; [exact O|]. split; [split; assumption|]. discriminate.
Qed.

(** X11. The result of [extract] is well formed.  It is successful exactly
    when it has no error message.  A successful result has a quality
    entry.  A quality entry holds a score between 0 and 1 that is also the
    [overall_score] of its report, and a failed result has one only in
    strict mode with the score under the minimum; a result without quality
    entry is a failed parse. *)
Theorem extract_result_well_formed (doc : Document) (mq : Q) (strict : bool) :
  let r := extract doc mq strict in
  (r_success r = true <-> r_error r = None)
  /\ (r_success r = true -> r_quality r <> None)
  /\ (forall score rep,
        r_quality r = Some (score, rep) ->
        overall_score rep = score /\ 0 <= score <= 1
        /\ (r_success r = false ->
              strict = true /\ score < mq
              /\ r_error r = Some (quality_msg score mq)
              /\ In (quality_msg score mq) (errors rep))).
Proof.
  exact (extract_result_shape doc mq strict).
Qed.

(** X12. With the parameters [main] derives under [--ignore-quality], or
    with a minimum quality of 0 or less, the gate of [extract] is off: a
    document that parses gives a successful result without error whose
    report is the one of the assessment with nothing appended, whatever
    the strict flag says, and the exit code [main] computes from that
    result is 0. *)
Theorem gate_off_always_succeeds (args : Args) (loads : list PageLoad) :
  a_ignore_quality args = true \/ a_min_quality args <= 0 ->
  first_fault loads = None ->
  let pages := fst (process_pages loads 1 []) in
  let r := extract (Opened loads) (effective_min_quality args)
                   (effective_strict args) in
  r = mkResult true pages None (Some (assess_quality pages initial_report))
  /\ exit_code_of args r = 0%Z.
Proof.
  intros G F. cbn zeta.
  assert (M : effective_min_quality args <= 0).
  { unfold effective_min_quality. destruct G as [-> | G]; [lra|].
    destruct (a_ignore_quality args); [lra | exact G]. }
  unfold extract. rewrite process_pages_spec, F. cbn [fst].
  set (pages := [] ++ map _ _).
  pose proof (assess_quality_nonneg pages initial_report) as N.
  destruct (assess_quality pages initial_report) as [score report].
  cbn [fst] in N.
  assert (L : Qlt_bool score (effective_min_quality args) = false)
    by (apply Qlt_bool_false; lra).
  rewrite L. split; [reflexivity|].
  unfold exit_code_of. cbn [r_success r_quality negb].
  rewrite L. reflexivity.
Qed.

Lemma gate_off_always_succeeds_witness :
  r_success (extract blank_document (effective_min_quality ignore_args)
                     (effective_strict ignore_args)) = true.
Proof.
  unfold blank_document.
  rewrite (proj1 (gate_off_always_succeeds ignore_args [PageOk empty_page]
                    (or_introl eq_refl) eq_refl)).
  reflexivity.
Defined.


(** ** More on best-of mode *)

Lemma clean_table_eq (g : Grid) :
  clean_table g
  = filter (fun row => existsb truthy row) (map (map clean_cell) g).
Proof. destruct g; reflexivity. Qed.

Lemma clean_cell_trimmed (c : Cell) : strip (clean_cell c) = clean_cell c.
Proof. destruct c as [s|]; [apply strip_idem | reflexivity]. Qed.

Lemma clean_table_rows_ok (g : Grid) :
  Forall (fun row => existsb truthy row = true
                     /\ Forall (fun cell => strip cell = cell) row)
         (clean_table g).
Proof.
  rewrite clean_table_eq. apply Forall_forall. intros row I.
  apply filter_In in I as [I P]. split; [exact P|].
  apply in_map_iff in I as (r0 & <- & _).
  apply Forall_forall. intros cell Ic.
  apply in_map_iff in Ic as (c & <- & _). apply clean_cell_trimmed.
Qed.

Lemma map_id_on {A : Type} (f : A -> A) (l : list A) :
  Forall (fun x => f x = x) l -> map f l = l.
Proof.
  induction 1 as [|x l H _ IH]; simpl; [reflexivity|]. rewrite H, IH.
  reflexivity.
Qed.

Lemma filter_all {A : Type} (f : A -> bool) (l : list A) :
  Forall (fun x => f x = true) l -> filter f l = l.
Proof.
  induction 1 as [|x l H _ IH]; simpl; [reflexivity|]. rewrite H, IH.
  reflexivity.
Qed.

Lemma clean_cell_filled (c : Cell) : truthy (clean_cell c) = cell_filled c.
Proof.
  destruct c as [s|]; [|reflexivity]. simpl.
  destruct s as [|a s]; [reflexivity|]. reflexivity.
Qed.

Lemma clean_row_filled (row : list Cell) :
  existsb truthy (map clean_cell row) = existsb cell_filled row.
Proof.
  induction row as [|c row IH]; [reflexivity|].
  simpl. rewrite clean_cell_filled, IH. reflexivity.
Qed.

Lemma clean_table_kept_rows (g : Grid) :
  clean_table g = map (map clean_cell) (filter (existsb cell_filled) g).
Proof.
  rewrite clean_table_eq. induction g as [|row g IH]; [reflexivity|].
  simpl. rewrite clean_row_filled, IH.
  destruct (existsb cell_filled row); reflexivity.
Qed.

(** X14. [clean_table] returns, in order, the rows of the grid that have a
    cell with content (a string that is not blank), each cell replaced by
    its trimmed text and a missing cell by the empty string; so every
    returned row has a non-empty cell, every cell is trimmed, there are
    never more rows than the grid had, and cleaning again a grid that was
    cleaned changes nothing. *)
Theorem clean_table_idempotent (g : Grid) :
  clean_table g
  = map (map (fun cell => match cell with
                          | None => []
                          | Some s => strip s
                          end))
        (filter (existsb (fun cell => match cell with
                                      | None => false
                                      | Some s => truthy s && truthy (strip s)
                                      end)) g)
  /\ Forall (fun row => existsb truthy row = true
                        /\ Forall (fun cell => strip cell = cell) row)
            (clean_table g)
  /\ (length (clean_table g) <= length g)%nat
  /\ clean_table (as_extracted (clean_table g)) = clean_table g.
Proof.
  pose proof (clean_table_rows_ok g) as R.
  split; [exact (clean_table_kept_rows g)|].
  split; [exact R|]. split.
  - rewrite clean_table_eq.
    rewrite <- (length_map (map clean_cell) g). apply filter_length_le.
  - rewrite (clean_table_eq (as_extracted _)). unfold as_extracted.
    rewrite map_map.
    assert (M : map (fun row => map clean_cell (map Some row)) (clean_table g)
                = clean_table g).
    { apply map_id_on. eapply Forall_impl; [|exact R].
      intros row [_ T]. rewrite map_map. cbn [clean_cell].
      apply map_id_on, T. }
    rewrite M. apply filter_all.
    eapply Forall_impl; [|exact R]. intros row [P _]. exact P.
Qed.

Lemma emit_fold_shape (cands : list Candidate) (acc : list SelectedTable) :
  map s_index acc = seq 0 (length acc) ->
  Forall (fun t => s_rows t = length (s_data t) /\ (0 < s_rows t)%nat
                   /\ s_cols t = first_row_length (s_data t)) acc ->
  let out := fold_left emit_table cands acc in
  map s_index out = seq 0 (length out)
  /\ Forall (fun t => s_rows t = length (s_data t) /\ (0 < s_rows t)%nat
                      /\ s_cols t = first_row_length (s_data t)) out.
Proof.
  revert acc. induction cands as [|c cands IH]; intros acc I F; cbn zeta.
  - split; assumption.
  - cbn [fold_left]. apply IH.
    + unfold emit_table.
      destruct (truthy (clean_table (c_data c))); [|exact I].
      rewrite map_app, length_app, I. cbn [map length s_index].
      rewrite Nat.add_1_r, seq_S. reflexivity.
    + unfold emit_table.
      destruct (clean_table (c_data c)) as [|row g] eqn:C; [exact F|].
      cbn [truthy]. apply Forall_app. split; [exact F|].
      constructor; [|constructor]. cbn [s_rows s_data s_cols length].
      split; [reflexivity|]. split; [lia | reflexivity].
Qed.

(** X15. The tables [extract_tables] returns are indexed 0, 1, 2, ... in
    the order of the list; each has [rows] equal to the number of rows of
    its grid, at least one, and [cols] equal to the length of its first
    row. *)
Theorem selected_tables_indexed (page : Page) :
  map s_index (extract_tables page) = seq 0 (length (extract_tables page))
  /\ Forall (fun t => s_rows t = length (s_data t) /\ (0 < s_rows t)%nat
                      /\ s_cols t = first_row_length (s_data t))
            (extract_tables page).
Proof.
  unfold extract_tables, emit_tables.
  apply (emit_fold_shape _ []); [reflexivity | constructor].
Qed.



(** ** More on union-with-dedup mode *)

Lemma accept_fold_nonempty (cands : list (Grid * (Q * Q * Q * Q)))
      (tables : list TableData) :
  tables <> [] -> fold_left accept_candidate cands tables <> [].
Proof.
  intros NE E. destruct (accept_fold_app cands tables) as [rest H].
  rewrite E in H. destruct tables; [congruence | discriminate].
Qed.

Lemma accept_all_empty_iff (cands : list (Grid * (Q * Q * Q * Q))) :
  accept_all cands = []
  <-> Forall (fun c => count_non_empty (fst c) = 0%nat) cands.
Proof.
  unfold accept_all. induction cands as [|c cands IH]; simpl.
  - split; [constructor | reflexivity].
  - destruct (accept_candidate_cases [] c) as [(E & P & _) | (E & [Z | D])];
      rewrite E.
    + split.
      * intro H. exfalso. revert H. apply accept_fold_nonempty. discriminate.
      * intro F. inversion F; subst. lia.
    + rewrite IH. split; [intro F; constructor; assumption|].
      intro F. inversion F; assumption.
    + discriminate D.
Qed.

(** X17. A page has tables in union-with-dedup mode exactly when one of
    the candidates extracted for it has a non-empty cell: the list is
    empty when every extracted grid is blank, and in particular when
    every strategy raises or finds nothing. *)
Theorem union_tables_empty_iff (page : Page) :
  extract_tables_with_coords page = []
  <-> Forall (fun c => count_non_empty (fst c) = 0%nat)
             (extracted_candidates page).
Proof.
  rewrite extract_tables_with_coords_flat. apply accept_all_empty_iff.
Qed.

(** ** Extraction without coordinates *)

Lemma plain_process_pages_spec (loads : list PlainLoad) :
  forall k acc,
    map pp_number acc = seq 1 (length acc) -> k = S (length acc) ->
    let out := plain_process_pages loads k acc in
    map pp_number (fst out) = seq 1 (length (fst out))
    /\ (exists rest, fst out = acc ++ rest)
    /\ (snd out = None ->
        length (fst out) = (length acc + length loads)%nat).
Proof.
  induction loads as [|[msg|page text] loads IH]; intros k acc N K; cbn zeta.
  - simpl. split; [exact N|]. split; [exists []; rewrite app_nil_r; reflexivity|].
    intros _. lia.
  - simpl. split; [exact N|]. split; [exists []; rewrite app_nil_r; reflexivity|].
    discriminate.
  - cbn [plain_process_pages].
    destruct (IH (S k) (acc ++ [extract_page page text k])) as (A & (r & B) & C).
    + rewrite map_app, length_app, N. cbn [map length extract_page pp_number].
      rewrite Nat.add_1_r, seq_S. subst k. reflexivity.
    + rewrite length_app. simpl. lia.
    + split; [exact A|]. split.
      * exists (extract_page page text k :: r). rewrite B, <- app_assoc.
        reflexivity.
      * intro H. rewrite (C H), length_app. simpl. lia.
Qed.

Lemma emit_tables_data (cands : list Candidate) :
  Forall (fun t => s_data t <> []) (emit_tables cands).
Proof.
  apply Forall_forall. intros t I. unfold emit_tables in I.
  apply emit_fold_origin in I as [[] | (_ & _ & _ & NE)]. exact NE.
Qed.

Lemma plain_process_pages_tables (loads : list PlainLoad) :
  forall k acc,
    Forall (fun p => Forall (fun t => s_data t <> []) (pp_tables p)) acc ->
    Forall (fun p => Forall (fun t => s_data t <> []) (pp_tables p))
           (fst (plain_process_pages loads k acc)).
Proof.
  induction loads as [|[msg|page text] loads IH]; intros k acc F; simpl;
    try exact F.
  apply IH. apply Forall_app. split; [exact F|].
  constructor; [|constructor]. cbn [extract_page pp_tables].
  apply emit_tables_data.
Qed.

Lemma plain_process_pages_fault (loads : list PlainLoad) :
  forall k acc msg,
    In (PlainFault msg) loads ->
    snd (plain_process_pages loads k acc) <> None.
Proof.
  induction loads as [|[m|page text] loads IH]; intros k acc msg I.
  - destruct I.
  - simpl. discriminate.
  - cbn [plain_process_pages]. destruct I as [I | I]; [discriminate I|].
    apply (IH _ _ msg I).
Qed.

(** X18. The result of [PDFExtractor.extract] is successful exactly when
    it has no error message, and then it holds one page for every page of
    the document; a page that raises ends the loop and makes the result
    failed.  Its pages are numbered from 1 without a gap, also when a
    later page raised, and no table of any page has an empty grid. *)
Theorem plain_extract_result (doc : PlainDocument) :
  let r := plain_extract doc in
  (pr_success r = true <-> pr_error r = None)
  /\ (forall loads, doc = PlainOpened loads -> pr_success r = true ->
        length (pr_pages r) = length loads)
  /\ (forall loads msg, doc = PlainOpened loads ->
        In (PlainFault msg) loads -> pr_success r = false)
  /\ map pp_number (pr_pages r) = seq 1 (length (pr_pages r))
  /\ Forall (fun p => Forall (fun t => s_data t <> []) (pp_tables p))
            (pr_pages r).
Proof.
  cbn zeta. unfold plain_extract. destruct doc as [msg|loads].
  - cbn [pr_success pr_error pr_pages].
    split; [split; discriminate|]. split; [discriminate|].
    split; [discriminate|]. split; [reflexivity | constructor].
  - pose proof (plain_process_pages_spec loads 1 [] eq_refl eq_refl) as S.
    pose proof (plain_process_pages_tables loads 1 [] (Forall_nil _)) as T.
    pose proof (plain_process_pages_fault loads 1 []) as Fl.
    cbn zeta in S. destruct S as (N & _ & L).
    destruct (plain_process_pages loads 1 []) as [pages [msg|]];
      cbn [fst snd pr_success pr_error pr_pages] in *.
    + split; [split; discriminate|]. split; [discriminate|].
      split; [reflexivity|]. split; [exact N | exact T].
    + split; [split; reflexivity|]. split.
      * intros l E _. injection E as <-. apply (L eq_refl).
      * split; [|split; [exact N | exact T]].
        intros l m E I. injection E as <-. exfalso.
        apply (Fl m I). reflexivity.
Qed.

Lemma plain_extract_result_witness :
  pr_success (plain_extract plain_broken_document) = false.
Proof.
  destruct (plain_extract_result plain_broken_document)
    as (_ & _ & H & _).
  apply (H [PlainOk sample_page (Some (py "Name Qty")); PlainOk empty_page None;
            PlainFault (py "No /Root object")] (py "No /Root object")).
  - reflexivity.
  - right. right. left. reflexivity.
Defined.

(** ** Bounds on the scores *)

(** X19. The quality of a table with cells lies between 0.7 times its
    fill ratio and its fill ratio, and equals the fill ratio as soon as
    [rows * cols] is 10 or more. *)
Theorem table_quality_between (t : TableData) :
  count_total (t_data t) <> 0%nat ->
  0.7 * fill_ratio (t_data t) <= assess_table_quality t <= fill_ratio (t_data t)
  /\ ((10 <= t_rows t * t_cols t)%nat ->
      assess_table_quality t == fill_ratio (t_data t)).
Proof.
  intro NZ. rewrite (table_quality_nonzero t NZ).
  pose proof (fill_ratio_bounds _ NZ) as [F0 F1].
  pose proof (size_factor_bounds t) as [S0 S1].
  split; [split; nra|].
  intro L. unfold size_factor.
  assert (X : 1 <= Qnat (t_rows t * t_cols t) / 10).
  { apply Qle_shift_div_l; [lra|].
    apply (Qnat_le 10) in L. change (Qnat 10) with 10 in L. lra. }
  assert (M : py_min 1 (Qnat (t_rows t * t_cols t) / 10) == 1).
  { unfold py_min.
    destruct (Qlt_bool (Qnat (t_rows t * t_cols t) / 10) 1) eqn:E;
      [|reflexivity].
    apply Qlt_bool_iff in E. lra. }
  rewrite M. ring.
Qed.

Lemma table_quality_between_witness :
  assess_table_quality full_table == fill_ratio (t_data full_table).
Proof.
  apply (proj2 (table_quality_between full_table
                  ltac:(vm_compute; discriminate))).
  simpl. lia.
Defined.

(** X20. A document without tables never scores above 0.88: its overall
    score is [0.6 * text_quality + 0.4 * structure_quality] and without a
    table the structure quality is at most 0.7. *)
Theorem score_without_tables_bound (pages : list PageData)
        (rep : QualityReport) :
  all_tables pages = [] ->
  assess_structure_quality pages <= 0.7
  /\ fst (assess_quality pages rep) <= 0.88.
Proof.
  intro E.
  assert (S : assess_structure_quality pages <= 0.7).
  { rewrite structure_quality_value, E. cbn [truthy].
    destruct (existsb is_heading_elem (all_elements pages)),
             (existsb is_list_elem (all_elements pages));
      vm_compute; discriminate. }
  split; [exact S|].
  rewrite (assess_quality_without_tables pages rep E).
  pose proof (assess_text_quality_bounds pages) as [_ T1].
  apply Qle_shift_div_r; lra.
Qed.

Lemma score_without_tables_bound_witness :
  fst (assess_quality uneven_pages initial_report) <= 0.88.
Proof.
  apply (proj2 (score_without_tables_bound uneven_pages initial_report
                  eq_refl)).
Defined.

Lemma fold_Qplus_pos (l : list Q) :
  Forall (fun x => 0 < x) l -> l <> [] ->
  forall a, a < fold_left Qplus l a.
Proof.
  induction 1 as [|x l X F IH]; intros NE a; [congruence|].
  cbn [fold_left]. destruct l as [|y l].
  - simpl. lra.
  - assert (H : a + x < fold_left Qplus (y :: l) (a + x))
      by (apply IH; discriminate).
    lra.
Qed.

Lemma process_pages_tables_positive (loads : list PageLoad) :
  forall k acc,
    Forall (fun t => 0 < assess_table_quality t) (all_tables acc) ->
    Forall (fun t => 0 < assess_table_quality t)
           (all_tables (fst (process_pages loads k acc))).
Proof.
  induction loads as [|[msg|page] loads IH]; intros k acc F; simpl;
    try exact F.
  apply IH. unfold all_tables in *. rewrite flat_map_app.
  apply Forall_app. split; [exact F|].
  simpl. rewrite app_nil_r. apply Forall_forall. intros t I.
  destruct (accepted_table_shape page t I) as (_ & _ & _ & P & _). exact P.
Qed.

(** X21. A document in which the coordinate flow accepted a table never
    scores 0: every accepted table has a positive quality and the table
    counts for the structure quality, so the overall score of the pages
    of a result is above 0.06. *)
Theorem score_with_table_positive (loads : list PageLoad) :
  let pages := fst (process_pages loads 1 []) in
  all_tables pages <> [] ->
  0 < avg_table_quality pages
  /\ 0.3 <= assess_structure_quality pages
  /\ 0.06 < fst (assess_quality pages initial_report).
Proof.
  cbn zeta. intro NE.
  pose proof (process_pages_tables_positive loads 1 [] (Forall_nil _)) as P.
  set (pages := fst (process_pages loads 1 [])) in *.
  assert (A : 0 < avg_table_quality pages).
  { unfold avg_table_quality, py_sum. apply Qdiv_pos.
    - apply fold_Qplus_pos.
      + apply Forall_forall. intros x I. apply in_map_iff in I as (t & <- & I).
        rewrite Forall_forall in P. apply P, I.
      + destruct (all_tables pages); [congruence | discriminate].
    - apply Qnat_pos. destruct (all_tables pages); [congruence | simpl; lia]. }
  assert (S : 0.3 <= assess_structure_quality pages).
  { rewrite structure_quality_value.
    destruct (all_tables pages); [congruence|]. cbn [truthy].
    destruct (existsb is_heading_elem (all_elements pages)),
             (existsb is_list_elem (all_elements pages));
      vm_compute; discriminate. }
  split; [exact A|]. split; [exact S|].
  rewrite (assess_quality_with_tables pages initial_report NE).
  pose proof (assess_text_quality_bounds pages) as [T0 _]. lra.
Qed.

Lemma score_with_table_positive_witness :
  0.06 < fst (assess_quality (fst (process_pages table_loads 1 []))
                             initial_report).
Proof.
  apply (score_with_table_positive table_loads).
  vm_compute. discriminate.
Defined.

(** ** The further properties on sample inputs *)

Lemma grouped_lines_reading_order_witness :
  group_text_by_lines two_row_chars <> [].
Proof.
  destruct (grouped_lines_reading_order two_row_chars) as (_ & _ & _ & H).
  apply H. discriminate.
Defined.


(** The scores are those of the code's arithmetic: one filled cell of 49
    scores (1/49)*49, which is below 1 as a double, so the later strategy
    with one filled cell of one replaces the earlier one although both
    have one non-empty cell. *)
Lemma rounded_score_decides :
  PrimFloat.ltb (candidate_score one_of_49) (candidate_score one_of_1) = true
  /\ map s_data (extract_tables rounding_page) = [[[py "x"]]].
Proof.
  split; reflexivity.
Qed.
